(** * Info section navigation controller

    A shallow embedding of [Telegram/SourceFiles/info/info_controller.cpp]:
    the identity [Key], the base controller's data sources
    ([mediaSource], [downloadsSource]), and the concrete [Controller]
    with its search delegates and its migration viewer.

    Conventions.
    - Raw pointers are addresses ([nat]) wrapped in one type per pointee;
      a nullable pointer is an [option], a [not_null] pointer is the bare
      address.  Pointer comparison is address comparison.
    - [Expects] and [Assert] terminate the process; dereferencing a null
      [unique_ptr] is undefined.  An operation that can hit one of them
      returns an [outcome].
    - A reactive producer is represented by what it delivers: the value
      function applied at each delivery, or a symbolic description of the
      viewer that was requested from a collaborator. *)

From Stdlib Require Import ZArith List String Bool Lia.
From Stdlib Require Import Sorting.Sorted Sorting.Permutation.
Import ListNotations.
Local Open Scope Z_scope.

(* ================================================================= *)
(** ** Identifiers and pointers *)

Definition PeerId := Z.
Definition MsgId := Z.
Definition QString := string.

Definition isEmpty (q : QString) : bool :=
  match q with EmptyString => true | String _ _ => false end.

Record FullMsgId := { fm_peer : PeerId; fm_msg : MsgId }.

(** [FullMsgId()] *)
Definition FullMsgId_default : FullMsgId := {| fm_peer := 0; fm_msg := 0 |}.

Inductive PeerPtr := PeerAt (addr : nat).
Inductive UserPtr := UserAt (addr : nat).
Inductive PollPtr := PollAt (addr : nat).
Inductive ItemPtr := ItemAt (addr : nat).
Inductive WidgetPtr := WidgetAt (addr : nat).
Inductive WindowPtr := WindowAt (addr : nat).

Definition PeerPtr_eqb (a b : PeerPtr) : bool :=
  match a, b with PeerAt x, PeerAt y => Nat.eqb x y end.
Definition UserPtr_eqb (a b : UserPtr) : bool :=
  match a, b with UserAt x, UserAt y => Nat.eqb x y end.

(** Comparison of two nullable pointers. *)
Definition ptr_eqb {A} (eqb : A -> A -> bool) (a b : option A) : bool :=
  match a, b with
  | Some x, Some y => eqb x y
  | None, None => true
  | _, _ => false
  end.

Definition isSome {A} (o : option A) : bool :=
  match o with Some _ => true | None => false end.

(* ================================================================= *)
(** ** Fatal outcomes *)

Inductive Fatal :=
| ExpectsViolation   (* Expects(...) failed *)
| AssertViolation    (* Assert(...) failed *)
| NullDereference.   (* operator-> on an empty unique_ptr *)

Inductive outcome (A : Type) :=
| Done (a : A)
| Abort (f : Fatal).
Arguments Done {A} a.
Arguments Abort {A} f.

Definition bind {A B} (o : outcome A) (k : A -> outcome B) : outcome B :=
  match o with
  | Done a => k a
  | Abort f => Abort f
  end.

Notation "x <- c ;; k" := (bind c (fun x => k))
  (at level 61, c at next level, right associativity).

(* ================================================================= *)
(** ** Info::Key *)

Module Settings.
Record Tag := { self : UserPtr }.
End Settings.

Module Downloads.
Inductive Tag := tag.
End Downloads.

Record PollKey := { pk_poll : PollPtr; pk_contextId : FullMsgId }.

Module Key.

(** [std::variant<not_null<PeerData*>, Settings::Tag, Downloads::Tag,
    PollKey> _value]; one constructor of the class per alternative. *)
Inductive t :=
| OfPeer (peer : PeerPtr)
| OfSettings (settings : Settings.Tag)
| OfDownloads (downloads : Downloads.Tag)
| OfPoll (data : PollKey).

(** [Key::Key(not_null<PollData*> poll, FullMsgId contextId)] *)
Definition ofPoll (poll : PollPtr) (contextId : FullMsgId) : t :=
  OfPoll {| pk_poll := poll; pk_contextId := contextId |}.

Definition peer (k : t) : option PeerPtr :=
  match k with
  | OfPeer p => Some p
  | _ => None
  end.

Definition settingsSelf (k : t) : option UserPtr :=
  match k with
  | OfSettings tag => Some (Settings.self tag)
  | _ => None
  end.

Definition isDownloads (k : t) : bool :=
  match k with
  | OfDownloads _ => true
  | _ => false
  end.

Definition poll (k : t) : option PollPtr :=
  match k with
  | OfPoll data => Some (pk_poll data)
  | _ => None
  end.

Definition pollContextId (k : t) : FullMsgId :=
  match k with
  | OfPoll data => pk_contextId data
  | _ => FullMsgId_default
  end.

(** How many of the four accessors yield a present value. *)
Definition presentCount (k : t) : nat :=
  (Nat.b2n (isSome (peer k)) + Nat.b2n (isSome (settingsSelf k))
   + Nat.b2n (isDownloads k) + Nat.b2n (isSome (poll k)))%nat.

End Key.

(* ================================================================= *)
(** ** Sections *)

(** Modelled from the spec: the [Section::Type] enumeration is declared in
    a header outside the sources; the code names [Media], [CommonGroups],
    [Members], [Profile] and [Downloads], the remaining two are the
    sections of the settings and poll keys. *)
Inductive SectionType :=
| Profile | Media | CommonGroups | Members | SettingsSection
| DownloadsSection | PollResults.

Definition SectionType_eqb (a b : SectionType) : bool :=
  match a, b with
  | Profile, Profile | Media, Media | CommonGroups, CommonGroups
  | Members, Members | SettingsSection, SettingsSection
  | DownloadsSection, DownloadsSection | PollResults, PollResults => true
  | _, _ => false
  end.

(** Modelled from the spec: the shared media kinds ([Section::MediaType]);
    the code names only the sentinel [kCount]. *)
Inductive MediaType :=
| Photo | Video | MusicFile | File | VoiceFile | Link | GIF | kCount.

Record InfoSection := { type : SectionType; mediaType : MediaType }.

(** Modelled from the spec: [Section::mediaType()] is declared in a header
    outside the sources.  The media type of a section is meaningful only
    when its type is Media; the accessor is a precondition violation for
    any other section (the code itself reads it under [isMedia] where the
    section may be of another type). *)
Definition Section_mediaType (s : InfoSection) : outcome MediaType :=
  if SectionType_eqb (type s) Media then Done (mediaType s)
  else Abort ExpectsViolation.


(* ================================================================= *)
(** ** Session data read by the controller *)

(** The members of [PeerData] the controller reads.  [isChat], [isChannel],
    [migrateTo] and [migrateFrom] are defined outside the sources and are
    taken as stored data of the peer. *)
Record PeerData := {
  peer_id : PeerId;                     (* peer->id *)
  isChat : bool;
  isChannel : bool;
  migrateTo : option PeerPtr;
  migrateFrom : option PeerPtr
}.

Record HistoryItem := { isScheduled : bool }.

(** [session().data()]: the objects behind peer pointers, the peer
    registered for an id, and message lookup by peer and message id. *)
Record DataSession := {
  peerAt : PeerPtr -> PeerData;
  peerById : PeerId -> PeerPtr;                        (* data().peer(id) *)
  message : PeerId -> MsgId -> option HistoryItem      (* data().message(peerId, id) *)
}.

(* ================================================================= *)
(** ** Downloads *)

Record DownloadObject := { item : ItemPtr }.

(** An element of [manager->loadingList()]. *)
Record DownloadingId := { object : DownloadObject; started : Z }.

(** [DownloadsEntry{ .item, .started }] *)
Record DownloadsEntry := { entry_item : ItemPtr; entry_started : Z }.

Record DownloadsSlice := { entries : list DownloadsEntry }.

(** [ranges::sort(entries, ranges::less(), &DownloadsEntry::started)].
    The library promises an arrangement ordered by the projection and
    leaves the relative order of equal keys open; the model keeps it. *)
Fixpoint insertByStarted (e : DownloadsEntry) (l : list DownloadsEntry)
  : list DownloadsEntry :=
  match l with
  | [] => [e]
  | x :: rest =>
      if entry_started e <? entry_started x then e :: l
      else x :: insertByStarted e rest
  end.

Definition sortByStarted (l : list DownloadsEntry) : list DownloadsEntry :=
  fold_right insertByStarted [] l.

(** The order [ranges::less] induces through the projection. *)
Definition startedLe (a b : DownloadsEntry) : Prop :=
  entry_started a <= entry_started b.

(** The loop of the mapped lambda: one [push_back] per loading id. *)
Definition entryOf (id : DownloadingId) : DownloadsEntry :=
  {| entry_item := item (object id); entry_started := started id |}.

(** The body of the lambda given to [rpl::map] in [downloadsSource]: it
    reads the manager's loading list at the moment it is invoked. *)
Definition downloadsSlice (loadingList : list DownloadingId) : DownloadsSlice :=
  {| entries := sortByStarted (map entryOf loadingList) |}.

(** [AbstractController::downloadsSource]:
    [rpl::single(empty_value) | rpl::then(loadingListChanges()) | rpl::map(...)].
    Modelled from the spec: a producer built with [single | then] emits
    once on subscription and once per upstream notification.  [current]
    is the loading list at subscription, [changes] gives the loading list
    found at each later change notification, in order. *)
Definition downloadsSource (current : list DownloadingId)
    (changes : list (list DownloadingId)) : list DownloadsSlice :=
  map downloadsSlice (current :: changes).

(* ================================================================= *)
(** ** Media queries and the viewers requested from collaborators *)

(** [SparseIdsMergedSlice::Key(peerId, migratedPeerId, universalId)] *)
Record SparseIdsMergedSliceKey := {
  k_peerId : PeerId;
  k_migratedPeerId : PeerId;
  k_universalId : MsgId
}.

(** [SharedMediaMergedKey(mergedKey, type)] *)
Record SharedMediaMergedKey := {
  mergedKey : SparseIdsMergedSliceKey;
  k_type : MediaType
}.

(** [Api::DelayedSearchController::Query] as filled by
    [produceSearchQuery]. *)
Record SearchQuery := {
  q_type : MediaType;
  q_peerId : PeerId;
  q_query : QString;
  q_migratedPeerId : PeerId
}.

(** The producer returned by a [mediaSource]: which collaborator was asked
    and with what arguments. *)
Inductive MediaSliceProducer (Delegate : Type) :=
| SharedMediaMergedViewer (key : SharedMediaMergedKey) (limitBefore limitAfter : Z)
| SharedScheduledMediaViewer (key : SharedMediaMergedKey) (limitBefore limitAfter : Z)
| idsSlice (searchController : Delegate) (aroundId : MsgId) (limitBefore limitAfter : Z).
Arguments SharedMediaMergedViewer {Delegate}.
Arguments SharedScheduledMediaViewer {Delegate}.
Arguments idsSlice {Delegate}.

(** The collaborators of the search wiring, none of them in the sources:
    the content-search delegate [Api::DelayedSearchController] with its
    saved state, and the predicate [SharedMediaAllowSearch].  They are
    taken as an interface; every result below holds for any
    implementation of it. *)
Class Collaborators (SavedState Delegate : Type) := {
  makeDelegate : Delegate;   (* std::make_unique<Api::DelayedSearchController>(&session()) *)
  restoreState : SavedState -> Delegate -> Delegate;
  saveState : Delegate -> SavedState;
  setQuery : SearchQuery -> Delegate -> Delegate;
  currentQuery : Delegate -> SearchQuery;
  SharedMediaAllowSearch : MediaType -> bool
}.

(** [Ui::SearchFieldController]: the current text, and whether the
    subscription that forwards its text to the content-search delegate
    is held by its [lifetime()]. *)
Record SearchFieldController := {
  query : QString;
  forwardsQuery : bool
}.

(** What [AbstractController] leaves to its subclasses. *)
Class AbstractController (C : Type) := {
  key : C -> Key.t;
  migrated : C -> option PeerPtr;
  section : C -> InfoSection;
  parentController : C -> WindowPtr
}.

(** [Window::SectionShow] *)
Inductive Way := Forward | Backward | ClearStack.
Inductive anim_type := normal | instant.
Inductive anim_activation := normal_activation | background.

Record SectionShow := {
  way : Way;
  animated : anim_type;
  activation : anim_activation
}.

(** [Info::Memento(peer, section)], the snapshot handed to the navigator. *)
Record Memento := { shown_peer : PeerPtr; shown_section : InfoSection }.

(** A call received by the window-level navigator. *)
Inductive NavigatorCall :=
| showSection (window : WindowPtr) (memento : Memento) (params : SectionShow).

(** [InvokeQueued(guard, callback)]: the callback waits in the event
    queue and is run from the event loop if the guard is still alive. *)
Record QueuedCall := { guard : WidgetPtr; callback : NavigatorCall }.

(** [Data::PeerUpdate::Flag]: the migration flag, and any other. *)
Inductive PeerUpdateFlag := MigrationFlag | OtherFlag.

Definition PeerUpdateFlag_eqb (a b : PeerUpdateFlag) : bool :=
  match a, b with
  | MigrationFlag, MigrationFlag | OtherFlag, OtherFlag => true
  | _, _ => false
  end.

(** A subscription to [peerFlagsValue(peer, flag)] stored in the
    controller's [lifetime()]. *)
Record Subscription := { watched : PeerPtr; flag : PeerUpdateFlag }.

(* ================================================================= *)
(** ** AbstractController *)

Section Abstract.

Context {Delegate : Type} {C : Type} {base : AbstractController C}.

(** [AbstractController::peer] *)
Definition peer (c : C) : option PeerPtr := Key.peer (key c).

(** Modelled from the spec: [settingsSelf()] of a controller is declared in
    the header; like [peer()] it resolves the settings owner from the Key. *)
Definition settingsSelf (c : C) : option UserPtr := Key.settingsSelf (key c).

(** [AbstractController::migratedPeerId] *)
Definition migratedPeerId (data : DataSession) (c : C) : PeerId :=
  match migrated c with
  | Some p => peer_id (peerAt data p)
  | None => 0
  end.

(** [AbstractController::mediaSource] *)
Definition AbstractController_mediaSource (data : DataSession) (c : C)
    (aroundId : MsgId) (limitBefore limitAfter : Z)
  : outcome (MediaSliceProducer Delegate) :=
  match peer c with
  | None => Abort ExpectsViolation
  | Some p =>
      let scheduled :=
        let peerId := peer_id (peerAt data p) in
        match message data peerId aroundId with
        | Some item => isScheduled item
        | None => false
        end in
      let mediaViewer :=
        if scheduled then SharedScheduledMediaViewer
        else SharedMediaMergedViewer in
      mediaType_ <- Section_mediaType (section c) ;;
      Done (mediaViewer
              {| mergedKey := {| k_peerId := peer_id (peerAt data p);
                                 k_migratedPeerId := migratedPeerId data c;
                                 k_universalId := aroundId |};
                 k_type := mediaType_ |}
              limitBefore limitAfter)
  end.

End Abstract.

(* ================================================================= *)
(** ** Navigation snapshots *)

Section Snapshots.

Variable SavedState : Type.

(** The part a [Media::Memento] adds to a [ContentMemento]. *)
Record MediaMemento := { searchState : SavedState }.

(** Modelled from the spec: [ContentMemento] is declared outside the
    sources.  A snapshot carries a Key, a Section, the migrated peer's id
    (0 when there is none), the saved query text and the two search flags;
    [asMedia] is its dynamic type as seen by
    [dynamic_cast<Media::Memento*>]. *)
Record ContentMemento := {
  memento_key : Key.t;
  memento_section : InfoSection;
  _migratedPeerId : PeerId;
  searchFieldQuery : QString;
  searchEnabledByContent : bool;
  searchStartsFocused : bool;
  asMedia : option MediaMemento
}.

(** [memento->peer()] and [memento->settingsSelf()]: the snapshot's Key
    resolved to a peer, to a settings owner. *)
Definition memento_peer (m : ContentMemento) : option PeerPtr :=
  Key.peer (memento_key m).

Definition memento_settingsSelf (m : ContentMemento) : option UserPtr :=
  Key.settingsSelf (memento_key m).

Definition setSearchFieldQuery (q : QString) (m : ContentMemento) : ContentMemento :=
  {| memento_key := memento_key m;
     memento_section := memento_section m;
     _migratedPeerId := _migratedPeerId m;
     searchFieldQuery := q;
     searchEnabledByContent := searchEnabledByContent m;
     searchStartsFocused := searchStartsFocused m;
     asMedia := asMedia m |}.

Definition setSearchEnabledByContent (enabled : bool) (m : ContentMemento)
  : ContentMemento :=
  {| memento_key := memento_key m;
     memento_section := memento_section m;
     _migratedPeerId := _migratedPeerId m;
     searchFieldQuery := searchFieldQuery m;
     searchEnabledByContent := enabled;
     searchStartsFocused := searchStartsFocused m;
     asMedia := asMedia m |}.

(** [mediaMemento->setSearchState(state)], on a snapshot already known to
    be of Media kind. *)
Definition setSearchState (state : SavedState) (m : ContentMemento)
  : ContentMemento :=
  {| memento_key := memento_key m;
     memento_section := memento_section m;
     _migratedPeerId := _migratedPeerId m;
     searchFieldQuery := searchFieldQuery m;
     searchEnabledByContent := searchEnabledByContent m;
     searchStartsFocused := searchStartsFocused m;
     asMedia := Some {| searchState := state |} |}.

End Snapshots.

Arguments searchState {SavedState}.
Arguments memento_key {SavedState}.
Arguments memento_section {SavedState}.
Arguments _migratedPeerId {SavedState}.
Arguments searchFieldQuery {SavedState}.
Arguments searchEnabledByContent {SavedState}.
Arguments searchStartsFocused {SavedState}.
Arguments asMedia {SavedState}.
Arguments memento_peer {SavedState}.
Arguments memento_settingsSelf {SavedState}.
Arguments setSearchFieldQuery {SavedState}.
Arguments setSearchEnabledByContent {SavedState}.
Arguments setSearchState {SavedState}.

(* ================================================================= *)
(** ** Controller *)

Section Concrete.

Context {SavedState Delegate : Type} {ext : Collaborators SavedState Delegate}.

Record Controller := {
  _parent : WindowPtr;
  _widget : WidgetPtr;
  _key : Key.t;
  _migrated : option PeerPtr;
  _section : InfoSection;
  _searchFieldController : option SearchFieldController;
  _searchController : option Delegate;
  _seachEnabledByContent : bool;
  _searchStartsFocused : bool;
  lifetime : list Subscription
}.

#[export] Instance Controller_base : AbstractController Controller := {
  key := _key;
  migrated := _migrated;
  section := _section;
  parentController := _parent
}.

(** [Controller::validateMementoPeer] *)
Definition validateMementoPeer (data : DataSession) (c : Controller)
    (memento : ContentMemento SavedState) : bool :=
  ptr_eqb PeerPtr_eqb (memento_peer memento) (peer c)
  && (_migratedPeerId memento =? migratedPeerId data c)
  && ptr_eqb UserPtr_eqb (memento_settingsSelf memento) (settingsSelf c).

(** [Controller::produceSearchQuery] *)
Definition produceSearchQuery (data : DataSession) (c : Controller)
    (text : QString) : outcome SearchQuery :=
  match Key.peer (_key c) with
  | None => Abort ExpectsViolation
  | Some p =>
      Done {| q_type := mediaType (_section c);
              q_peerId := peer_id (peerAt data p);
              q_query := text;
              q_migratedPeerId :=
                match _migrated c with
                | Some m => peer_id (peerAt data m)
                | None => 0
                end |}
  end.

(** Lines 252-261 of [updateSearchControllers]: the new value of
    [_searchController]. *)
Definition restoreSearchController (isMedia : bool)
    (memento : ContentMemento SavedState) : outcome (option Delegate) :=
  if isMedia then
    match asMedia memento with
    | None => Abort AssertViolation
    | Some mediaMemento =>
        Done (Some (restoreState (searchState mediaMemento) makeDelegate))
    end
  else Done None.

(** The subscription of lines 266-272.  Modelled from the spec:
    [queryValue()] is a live value, it delivers the current text on
    subscription and every later text; the first delivery therefore runs
    the lambda once with the initial text. *)
Definition forwardQuery (data : DataSession) (c : Controller)
    (text : QString) (searchController : Delegate) : outcome Delegate :=
  q <- produceSearchQuery data c text ;;
  Done (setQuery q searchController).

(** [Controller::updateSearchControllers] *)
Definition updateSearchControllers (data : DataSession) (c : Controller)
    (memento : ContentMemento SavedState) : outcome Controller :=
  let type_ := type (_section c) in
  let isMedia := SectionType_eqb type_ Media in
  let mediaType_ := if isMedia then mediaType (_section c) else kCount in
  let hasMediaSearch := isMedia && SharedMediaAllowSearch mediaType_ in
  let hasCommonGroupsSearch := SectionType_eqb type_ CommonGroups in
  let hasMembersSearch :=
    SectionType_eqb type_ Members || SectionType_eqb type_ Profile in
  let searchQuery := searchFieldQuery memento in
  searchController <- restoreSearchController isMedia memento ;;
  if hasMediaSearch || hasCommonGroupsSearch || hasMembersSearch then
    wired <- match searchController with
             | Some d =>
                 d' <- forwardQuery data c searchQuery d ;; Done (Some d')
             | None => Done None
             end ;;
    Done {| _parent := _parent c;
            _widget := _widget c;
            _key := _key c;
            _migrated := _migrated c;
            _section := _section c;
            _searchFieldController :=
              Some {| query := searchQuery;
                      forwardsQuery := isSome searchController |};
            _searchController := wired;
            _seachEnabledByContent := searchEnabledByContent memento;
            _searchStartsFocused := searchStartsFocused memento;
            lifetime := lifetime c |}
  else
    Done {| _parent := _parent c;
            _widget := _widget c;
            _key := _key c;
            _migrated := _migrated c;
            _section := _section c;
            _searchFieldController := None;
            _searchController := searchController;
            _seachEnabledByContent := _seachEnabledByContent c;
            _searchStartsFocused := _searchStartsFocused c;
            lifetime := lifetime c |}.

(** The test of line 262 as a function of the section: media search,
    common-groups search or members search. *)
Definition supportsSearch (s : InfoSection) : bool :=
  let type_ := type s in
  let isMedia := SectionType_eqb type_ Media in
  let mediaType_ := if isMedia then mediaType s else kCount in
  let hasMediaSearch := isMedia && SharedMediaAllowSearch mediaType_ in
  let hasCommonGroupsSearch := SectionType_eqb type_ CommonGroups in
  let hasMembersSearch :=
    SectionType_eqb type_ Members || SectionType_eqb type_ Profile in
  hasMediaSearch || hasCommonGroupsSearch || hasMembersSearch.

(** [Controller::setSection] *)
Definition setSection (data : DataSession) (c : Controller)
    (memento : ContentMemento SavedState) : outcome Controller :=
  updateSearchControllers data
    {| _parent := _parent c;
       _widget := _widget c;
       _key := _key c;
       _migrated := _migrated c;
       _section := memento_section memento;
       _searchFieldController := _searchFieldController c;
       _searchController := _searchController c;
       _seachEnabledByContent := _seachEnabledByContent c;
       _searchStartsFocused := _searchStartsFocused c;
       lifetime := lifetime c |}
    memento.

(** [Controller::saveSearchState]; the result is the snapshot as written. *)
Definition saveSearchState (c : Controller)
    (memento : ContentMemento SavedState) : outcome (ContentMemento SavedState) :=
  let memento1 :=
    match _searchFieldController c with
    | Some field =>
        setSearchEnabledByContent (_seachEnabledByContent c)
          (setSearchFieldQuery (query field) memento)
    | None => memento
    end in
  match _searchController c with
  | Some searchController =>
      match asMedia memento1 with
      | None => Abort AssertViolation
      | Some _ => Done (setSearchState (saveState searchController) memento1)
      end
  | None => Done memento1
  end.

(** [Controller::mediaSource] *)
Definition Controller_mediaSource (c : Controller)
    (aroundId : MsgId) (limitBefore limitAfter : Z)
  : outcome (MediaSliceProducer Delegate) :=
  match _searchController c with
  | None => Abort NullDereference
  | Some searchController =>
      let query_ := currentQuery searchController in
      if negb (isEmpty (q_query query_)) then
        Done (idsSlice searchController aroundId limitBefore limitAfter)
      else
        Done (SharedMediaMergedViewer
                {| mergedKey := {| k_peerId := q_peerId query_;
                                   k_migratedPeerId := q_migratedPeerId query_;
                                   k_universalId := aroundId |};
                   k_type := q_type query_ |}
                limitBefore limitAfter)
  end.

(** A later text of the query field (the user types): the field's value
    changes and, when the forwarding subscription exists, the lambda of
    lines 268-271 runs with the new text. *)
Definition fieldQueryChanged (data : DataSession) (c : Controller)
    (text : QString) : outcome Controller :=
  match _searchFieldController c with
  | None => Done c
  | Some field =>
      searchController <-
        (if forwardsQuery field then
           match _searchController c with
           | Some d => d' <- forwardQuery data c text d ;; Done (Some d')
           | None => Abort NullDereference
           end
         else Done (_searchController c)) ;;
      Done {| _parent := _parent c;
              _widget := _widget c;
              _key := _key c;
              _migrated := _migrated c;
              _section := _section c;
              _searchFieldController :=
                Some {| query := text; forwardsQuery := forwardsQuery field |};
              _searchController := searchController;
              _seachEnabledByContent := _seachEnabledByContent c;
              _searchStartsFocused := _searchStartsFocused c;
              lifetime := lifetime c |}
  end.

(** *** The migration viewer *)

(** The predicate given to [rpl::filter]. *)
Definition migrationFilter (data : DataSession) (c : Controller)
    (peer_ : PeerPtr) : bool :=
  isSome (migrateTo (peerAt data peer_))
  || negb (ptr_eqb PeerPtr_eqb (migrateFrom (peerAt data peer_)) (_migrated c)).

(** The body given to [rpl::start_with_next]: it reads the navigator and
    the current section, and queues the call. *)
Definition migrationNext (c : Controller) (peer_ : PeerPtr) : QueuedCall :=
  let window := parentController c in
  let section_ := _section c in
  {| guard := _widget c;
     callback :=
       showSection window
         {| shown_peer := peer_; shown_section := section_ |}
         {| way := Backward; animated := instant; activation := background |} |}.

(** One delivery of [peerFlagsValue(peer, Migration)] through the filter. *)
Definition migrationDelivery (data : DataSession) (c : Controller)
    (peer_ : PeerPtr) : list QueuedCall :=
  if migrationFilter data c peer_ then [migrationNext c peer_] else [].

(** [Controller::setupMigrationViewer]: the controller with the
    subscription in its lifetime, and what the subscription queues at
    once.  Modelled from the spec: [peerFlagsValue] is a value producer, it
    delivers once on subscription and then on every matching update. *)
Definition setupMigrationViewer (data : DataSession) (c : Controller)
  : Controller * list QueuedCall :=
  match Key.peer (_key c) with
  | None => (c, [])
  | Some peer_ =>
      if (negb (isChat (peerAt data peer_)) && negb (isChannel (peerAt data peer_)))
         || isSome (_migrated c)
      then (c, [])
      else
        ({| _parent := _parent c;
            _widget := _widget c;
            _key := _key c;
            _migrated := _migrated c;
            _section := _section c;
            _searchFieldController := _searchFieldController c;
            _searchController := _searchController c;
            _seachEnabledByContent := _seachEnabledByContent c;
            _searchStartsFocused := _searchStartsFocused c;
            lifetime := {| watched := peer_; flag := MigrationFlag |} :: lifetime c |},
         migrationDelivery data c peer_)
  end.

(** A peer update with the given flag reaches the subscriptions of the
    controller's lifetime. *)
Definition peerUpdated (data : DataSession) (c : Controller)
    (peer_ : PeerPtr) (flags : PeerUpdateFlag) : list QueuedCall :=
  flat_map
    (fun sub =>
       if PeerPtr_eqb (watched sub) peer_ && PeerUpdateFlag_eqb (flag sub) flags
       then migrationDelivery data c (watched sub)
       else [])
    (lifetime c).

(** [Controller::Controller(widget, window, memento)].  The two search
    flags start out false. *)
Definition Controller_new (data : DataSession) (widget : WidgetPtr)
    (window : WindowPtr) (memento : ContentMemento SavedState)
  : outcome (Controller * list QueuedCall) :=
  let c0 :=
    {| _parent := window;
       _widget := widget;
       _key := memento_key memento;
       _migrated :=
         if _migratedPeerId memento =? 0 then None
         else Some (peerById data (_migratedPeerId memento));
       _section := memento_section memento;
       _searchFieldController := None;
       _searchController := None;
       _seachEnabledByContent := false;
       _searchStartsFocused := false;
       lifetime := [] |} in
  c1 <- updateSearchControllers data c0 memento ;;
  Done (setupMigrationViewer data c1).

(** The content-search delegate works on its own (its timer fires, results
    arrive): its state is replaced, the controller's members are not
    touched. *)
Definition delegateAdvanced (c : Controller) (d' : Delegate) : Controller :=
  {| _parent := _parent c;
     _widget := _widget c;
     _key := _key c;
     _migrated := _migrated c;
     _section := _section c;
     _searchFieldController := _searchFieldController c;
     _searchController :=
       match _searchController c with
       | Some _ => Some d'
       | None => None
       end;
     _seachEnabledByContent := _seachEnabledByContent c;
     _searchStartsFocused := _searchStartsFocused c;
     lifetime := lifetime c |}.

(** The life of a controller after its construction: section changes and
    query texts, each against the session data of its moment, and the
    delegate's own progress. *)
Inductive evolves (c0 : Controller) : Controller -> Prop :=
| evolves_refl : evolves c0 c0
| evolves_setSection data c memento c' :
    evolves c0 c -> setSection data c memento = Done c' -> evolves c0 c'
| evolves_query data c text c' :
    evolves c0 c -> fieldQueryChanged data c text = Done c' -> evolves c0 c'
| evolves_delegate_advanced c d' :
    evolves c0 c -> evolves c0 (delegateAdvanced c d').

(** A controller in use: built by the constructor, then evolved. *)
Definition constructed (c : Controller) : Prop :=
  exists data widget window memento c0 queued,
    Controller_new data widget window memento = Done (c0, queued)
    /\ evolves c0 c.

(** The members no operation after the constructor assigns. *)
Definition sameIdentity (c c' : Controller) : Prop :=
  _parent c' = _parent c /\ _widget c' = _widget c /\ _key c' = _key c
  /\ _migrated c' = _migrated c /\ lifetime c' = lifetime c.

(** The content-search delegate exists exactly in Media sections. *)
Definition delegateMatchesSection (c : Controller) : Prop :=
  isSome (_searchController c) = SectionType_eqb (type (_section c)) Media.

End Concrete.

Arguments Controller {Delegate}.

(* ================================================================= *)
(** ** The event queue and the navigator *)

Record World := {
  queue : list QueuedCall;          (* posted with InvokeQueued, not yet run *)
  navigator : list NavigatorCall    (* calls the navigator has received *)
}.

(** Delivery of a peer update to a controller: what it queues is appended
    to the event queue; the navigator is not called. *)
Definition notifyPeerUpdate {Delegate} (data : DataSession)
    (c : @Controller Delegate) (peer_ : PeerPtr) (flags : PeerUpdateFlag)
    (w : World) : World :=
  {| queue := queue w ++ peerUpdated data c peer_ flags;
     navigator := navigator w |}.

(** One turn of the event loop: queued callbacks whose guard is alive run
    in order. *)
Definition processEvents (alive : WidgetPtr -> bool) (w : World) : World :=
  {| queue := [];
     navigator :=
       navigator w
       ++ map callback (filter (fun q => alive (guard q)) (queue w)) |}.

(* ================================================================= *)
(** ** A runnable instance *)

(** An implementation of the collaborators used to run the model on
    concrete inputs: the delegate is the query it currently serves, a new
    query is adopted at once, and documents, music files and links are the
    searchable media kinds. *)
Definition noQuery : SearchQuery :=
  {| q_type := kCount; q_peerId := 0; q_query := EmptyString;
     q_migratedPeerId := 0 |}.

#[export] Instance DirectSearch : Collaborators SearchQuery SearchQuery := {
  makeDelegate := noQuery;
  restoreState := fun state _ => state;
  saveState := fun d => d;
  setQuery := fun q _ => q;
  currentQuery := fun d => d;
  SharedMediaAllowSearch := fun t =>
    match t with
    | MusicFile | File | Link => true
    | _ => false
    end
}.

(** A session with a basic group at address 1 (id 101) and a channel at
    address 2 (id 202); message 7 of the group is scheduled. *)
Definition sampleData : DataSession :=
  {| peerAt := fun p =>
       match p with
       | PeerAt 1 => {| peer_id := 101; isChat := true; isChannel := false;
                        migrateTo := None; migrateFrom := None |}
       | PeerAt 2 => {| peer_id := 202; isChat := false; isChannel := true;
                        migrateTo := None; migrateFrom := None |}
       | PeerAt _ => {| peer_id := 303; isChat := false; isChannel := false;
                        migrateTo := None; migrateFrom := None |}
       end;
     peerById := fun i =>
       if i =? 101 then PeerAt 1 else if i =? 202 then PeerAt 2 else PeerAt 3;
     message := fun peerId msg =>
       if (peerId =? 101) && (msg =? 7) then Some {| isScheduled := true |}
       else if (peerId =? 101) && (msg =? 8) then Some {| isScheduled := false |}
       else None |}.

(** The same session after the group has been converted: it now has a
    migration target. *)
Definition migratedData : DataSession :=
  {| peerAt := fun p =>
       match p with
       | PeerAt 1 => {| peer_id := 101; isChat := true; isChannel := false;
                        migrateTo := Some (PeerAt 2); migrateFrom := None |}
       | PeerAt 2 => {| peer_id := 202; isChat := false; isChannel := true;
                        migrateTo := None; migrateFrom := Some (PeerAt 1) |}
       | other => peerAt sampleData other
       end;
     peerById := peerById sampleData;
     message := message sampleData |}.

Definition cats : QString := "cats"%string.

(** A Media snapshot of the group's files with a saved query text. *)
Definition filesSnapshot : ContentMemento SearchQuery :=
  {| memento_key := Key.OfPeer (PeerAt 1);
     memento_section := {| type := Media; mediaType := File |};
     _migratedPeerId := 0;
     searchFieldQuery := cats;
     searchEnabledByContent := true;
     searchStartsFocused := false;
     asMedia := Some {| searchState :=
       {| q_type := File; q_peerId := 101; q_query := EmptyString;
          q_migratedPeerId := 0 |} |} |}.

(** A Media snapshot of the group's photos: no query field for photos. *)
Definition photosSnapshot : ContentMemento SearchQuery :=
  {| memento_key := Key.OfPeer (PeerAt 1);
     memento_section := {| type := Media; mediaType := Photo |};
     _migratedPeerId := 0;
     searchFieldQuery := EmptyString;
     searchEnabledByContent := false;
     searchStartsFocused := false;
     asMedia := Some {| searchState :=
       {| q_type := Photo; q_peerId := 101; q_query := EmptyString;
          q_migratedPeerId := 0 |} |} |}.

(** A snapshot of the group's profile; not of Media kind. *)
Definition profileSnapshot : ContentMemento SearchQuery :=
  {| memento_key := Key.OfPeer (PeerAt 1);
     memento_section := {| type := Profile; mediaType := kCount |};
     _migratedPeerId := 0;
     searchFieldQuery := EmptyString;
     searchEnabledByContent := false;
     searchStartsFocused := false;
     asMedia := None |}.

(** A snapshot of the downloads list carrying a query text and the
    enabled flag. *)
Definition downloadsSnapshot : ContentMemento SearchQuery :=
  {| memento_key := Key.OfDownloads Downloads.tag;
     memento_section := {| type := DownloadsSection; mediaType := kCount |};
     _migratedPeerId := 0;
     searchFieldQuery := cats;
     searchEnabledByContent := true;
     searchStartsFocused := false;
     asMedia := None |}.

(** A new snapshot of the downloads list: empty text, flags off. *)
Definition freshDownloadsSnapshot : ContentMemento SearchQuery :=
  {| memento_key := Key.OfDownloads Downloads.tag;
     memento_section := {| type := DownloadsSection; mediaType := kCount |};
     _migratedPeerId := 0;
     searchFieldQuery := EmptyString;
     searchEnabledByContent := false;
     searchStartsFocused := false;
     asMedia := None |}.

(** The controller before the constructor body runs, for a snapshot. *)
Definition blank (memento : ContentMemento SearchQuery) : @Controller SearchQuery :=
  {| _parent := WindowAt 0;
     _widget := WidgetAt 0;
     _key := memento_key memento;
     _migrated := None;
     _section := memento_section memento;
     _searchFieldController := None;
     _searchController := None;
     _seachEnabledByContent := false;
     _searchStartsFocused := false;
     lifetime := [] |}.

(** The controllers the constructor builds in [sampleData] for the
    profile, files and photos snapshots of the group. *)
Definition profileController : @Controller SearchQuery :=
  {| _parent := WindowAt 0;
     _widget := WidgetAt 0;
     _key := Key.OfPeer (PeerAt 1);
     _migrated := None;
     _section := {| type := Profile; mediaType := kCount |};
     _searchFieldController :=
       Some {| query := EmptyString; forwardsQuery := false |};
     _searchController := None;
     _seachEnabledByContent := false;
     _searchStartsFocused := false;
     lifetime := [ {| watched := PeerAt 1; flag := MigrationFlag |} ] |}.

Definition filesController : @Controller SearchQuery :=
  {| _parent := WindowAt 0;
     _widget := WidgetAt 0;
     _key := Key.OfPeer (PeerAt 1);
     _migrated := None;
     _section := {| type := Media; mediaType := File |};
     _searchFieldController :=
       Some {| query := cats; forwardsQuery := true |};
     _searchController :=
       Some {| q_type := File; q_peerId := 101; q_query := cats;
               q_migratedPeerId := 0 |};
     _seachEnabledByContent := true;
     _searchStartsFocused := false;
     lifetime := [ {| watched := PeerAt 1; flag := MigrationFlag |} ] |}.

Definition photosController : @Controller SearchQuery :=
  {| _parent := WindowAt 0;
     _widget := WidgetAt 0;
     _key := Key.OfPeer (PeerAt 1);
     _migrated := None;
     _section := {| type := Media; mediaType := Photo |};
     _searchFieldController := None;
     _searchController :=
       Some {| q_type := Photo; q_peerId := 101; q_query := EmptyString;
               q_migratedPeerId := 0 |};
     _seachEnabledByContent := false;
     _searchStartsFocused := false;
     lifetime := [ {| watched := PeerAt 1; flag := MigrationFlag |} ] |}.

(** The value of a completed operation. *)
Definition valueOr {A} (o : outcome A) (otherwise : A) : A :=
  match o with
  | Done a => a
  | Abort _ => otherwise
  end.

(** The files and downloads panels right after [updateSearchControllers],
    and the snapshots [saveSearchState] then writes. *)
Definition filesRestored : @Controller SearchQuery := Eval cbv in
  valueOr (updateSearchControllers sampleData (blank filesSnapshot) filesSnapshot)
    (blank filesSnapshot).

Definition downloadsRestored : @Controller SearchQuery := Eval cbv in
  valueOr (updateSearchControllers sampleData (blank downloadsSnapshot)
             downloadsSnapshot)
    (blank downloadsSnapshot).

Definition filesSaved : ContentMemento SearchQuery := Eval cbv in
  valueOr (saveSearchState filesRestored photosSnapshot) photosSnapshot.

Definition downloadsSaved : ContentMemento SearchQuery := Eval cbv in
  valueOr (saveSearchState downloadsRestored freshDownloadsSnapshot)
    freshDownloadsSnapshot.

(** Nothing queued, nothing shown. *)
Definition idle : World := {| queue := []; navigator := [] |}.

Definition someLoading : list DownloadingId :=
  [ {| object := {| item := ItemAt 1 |}; started := 30 |};
    {| object := {| item := ItemAt 2 |}; started := 10 |};
    {| object := {| item := ItemAt 3 |}; started := 20 |} ].

(* ================================================================= *)
(** ** Query value sources *)

(** The producer returned by a [mediaSourceQueryValue]: a constant text,
    or the live text of a content-search delegate. *)
Inductive QueryValueProducer (Delegate : Type) :=
| single (text : QString)
| currentQueryValue (searchController : Delegate).
Arguments single {Delegate}.
Arguments currentQueryValue {Delegate}.

(** [AbstractController::mediaSourceQueryValue] *)
Definition AbstractController_mediaSourceQueryValue {Delegate C : Type}
    {base : AbstractController C} (c : C) : QueryValueProducer Delegate :=
  single EmptyString.

(** [Controller::mediaSourceQueryValue] *)
Definition Controller_mediaSourceQueryValue {Delegate : Type}
    (c : @Controller Delegate) : QueryValueProducer Delegate :=
  match _searchController c with
  | Some searchController => currentQueryValue searchController
  | None => single EmptyString
  end.

(* ================================================================= *)
(** ** Conditions used below *)

(** The forwarding subscription of the query field can run: there is a
    delegate to forward to and a peer to build the query from. *)
Definition forwardingSound {Delegate : Type} (c : @Controller Delegate) : Prop :=
  forall field,
    _searchFieldController c = Some field ->
    forwardsQuery field = true ->
    _searchController c <> None /\ Key.peer (_key c) <> None.

(** [data().peer(id)] answers with a peer that carries the id asked for. *)
Definition peerLookupCoherent (data : DataSession) (peerId : PeerId) : Prop :=
  peer_id (peerAt data (peerById data peerId)) = peerId.

(** The call the migration viewer queues for a peer and a section. *)
Definition replacementCall (widget : WidgetPtr) (window : WindowPtr)
    (peer_ : PeerPtr) (section_ : InfoSection) : QueuedCall :=
  {| guard := widget;
     callback :=
       showSection window
         {| shown_peer := peer_; shown_section := section_ |}
         {| way := Backward; animated := instant; activation := background |} |}.

(* ================================================================= *)
(** ** More sample inputs *)

(** A profile snapshot of the user at address 3. *)
Definition userSnapshot : ContentMemento SearchQuery :=
  {| memento_key := Key.OfPeer (PeerAt 3);
     memento_section := {| type := Profile; mediaType := kCount |};
     _migratedPeerId := 0;
     searchFieldQuery := EmptyString;
     searchEnabledByContent := false;
     searchStartsFocused := false;
     asMedia := None |}.

(** A profile snapshot of the channel that records the group (id 101) as
    its migrated peer. *)
Definition channelSnapshot : ContentMemento SearchQuery :=
  {| memento_key := Key.OfPeer (PeerAt 2);
     memento_section := {| type := Profile; mediaType := kCount |};
     _migratedPeerId := 101;
     searchFieldQuery := EmptyString;
     searchEnabledByContent := false;
     searchStartsFocused := false;
     asMedia := None |}.

(** A snapshot of the results of the poll at address 9. *)
Definition pollSnapshot : ContentMemento SearchQuery :=
  {| memento_key := Key.ofPoll (PollAt 9) {| fm_peer := 101; fm_msg := 8 |};
     memento_section := {| type := PollResults; mediaType := kCount |};
     _migratedPeerId := 0;
     searchFieldQuery := EmptyString;
     searchEnabledByContent := false;
     searchStartsFocused := false;
     asMedia := None |}.

(** A files snapshot of Media kind whose Key is the downloads list. *)
Definition strayFilesSnapshot : ContentMemento SearchQuery :=
  {| memento_key := Key.OfDownloads Downloads.tag;
     memento_section := {| type := Media; mediaType := File |};
     _migratedPeerId := 0;
     searchFieldQuery := EmptyString;
     searchEnabledByContent := false;
     searchStartsFocused := false;
     asMedia := Some {| searchState := noQuery |} |}.

(** The controller and the queued calls the constructor produces for a
    snapshot in a session. *)
Definition builtIn (data : DataSession) (memento : ContentMemento SearchQuery)
  : @Controller SearchQuery * list QueuedCall :=
  valueOr (Controller_new data (WidgetAt 0) (WindowAt 0) memento)
    (blank memento, []).

Definition userController : @Controller SearchQuery :=
  Eval cbv in fst (builtIn sampleData userSnapshot).

Definition channelController : @Controller SearchQuery :=
  Eval cbv in fst (builtIn sampleData channelSnapshot).

Definition downloadsController : @Controller SearchQuery :=
  Eval cbv in fst (builtIn sampleData freshDownloadsSnapshot).

(** The profile panel opened on the group after its conversion. *)
Definition lateProfileController : @Controller SearchQuery :=
  Eval cbv in fst (builtIn migratedData profileSnapshot).

(** The files panel after the user has typed "dogs". *)
Definition dogs : QString := "dogs"%string.

Definition filesTyped : @Controller SearchQuery :=
  Eval cbv in valueOr (fieldQueryChanged sampleData filesController dogs)
                filesController.

(* ================================================================= *)
(** * Properties *)

(** ** Key accessors *)

(** C5.  Whatever constructor built a Key, exactly one of [peer()],
    [settingsSelf()], [isDownloads()] and [poll()] yields a present value,
    namely the one of the stored alternative; every other accessor,
    [pollContextId()] included, returns null, false or the default id. *)
Theorem Key_one_accessor_present (k : Key.t) :
  Key.presentCount k = 1%nat
  /\ match k with
     | Key.OfPeer p =>
         Key.peer k = Some p /\ Key.settingsSelf k = None
         /\ Key.isDownloads k = false /\ Key.poll k = None
         /\ Key.pollContextId k = FullMsgId_default
     | Key.OfSettings settings =>
         Key.settingsSelf k = Some (Settings.self settings) /\ Key.peer k = None
         /\ Key.isDownloads k = false /\ Key.poll k = None
         /\ Key.pollContextId k = FullMsgId_default
     | Key.OfDownloads _ =>
         Key.isDownloads k = true /\ Key.peer k = None
         /\ Key.settingsSelf k = None /\ Key.poll k = None
         /\ Key.pollContextId k = FullMsgId_default
     | Key.OfPoll data =>
         Key.poll k = Some (pk_poll data) /\ Key.peer k = None
         /\ Key.settingsSelf k = None /\ Key.isDownloads k = false
         /\ Key.pollContextId k = pk_contextId data
     end.
Proof.
  destruct k; cbn; repeat split; reflexivity.
Qed.

(** ** Downloads source *)

Lemma insertByStarted_perm e l : Permutation (e :: l) (insertByStarted e l).
Proof.
  induction l as [|x rest IH]; cbn; [reflexivity|].
  destruct (entry_started e <? entry_started x); [reflexivity|].
  etransitivity; [apply perm_swap|]. now constructor.
Qed.

Lemma sortByStarted_perm l : Permutation l (sortByStarted l).
Proof.
  induction l as [|e l IH]; cbn; [constructor|].
  etransitivity; [|apply insertByStarted_perm]. now constructor.
Qed.

Lemma insertByStarted_sorted e l :
  Sorted startedLe l -> Sorted startedLe (insertByStarted e l).
Proof.
  induction l as [|x rest IH]; intros Hs; cbn.
  - repeat constructor.
  - destruct (Z.ltb_spec (entry_started e) (entry_started x)) as [Hlt|Hge].
    + constructor; [assumption|]. constructor. unfold startedLe. lia.
    + inversion Hs as [|? ? Hrest Hhd]; subst.
      constructor; [now apply IH|].
      destruct rest as [|y rest']; cbn.
      * constructor. unfold startedLe. lia.
      * destruct (entry_started e <? entry_started y).
        -- constructor. unfold startedLe. lia.
        -- inversion Hhd; subst. now constructor.
Qed.

Lemma sortByStarted_sorted l : StronglySorted startedLe (sortByStarted l).
Proof.
  apply Sorted_StronglySorted.
  - intros a b c Hab Hbc. unfold startedLe in *. lia.
  - induction l as [|e l IH]; cbn; [constructor|].
    now apply insertByStarted_sorted.
Qed.

(** Two ascending lists of timestamps with the same elements are equal. *)
Lemma ascending_unique (l1 l2 : list Z) :
  StronglySorted Z.le l1 -> StronglySorted Z.le l2 ->
  Permutation l1 l2 -> l1 = l2.
Proof.
  revert l2. induction l1 as [|a l1 IH]; intros l2 H1 H2 Hp.
  - now apply Permutation_nil in Hp.
  - destruct l2 as [|b l2].
    + symmetry in Hp. now apply Permutation_nil in Hp.
    + inversion H1 as [|? ? S1 F1]; subst.
      inversion H2 as [|? ? S2 F2]; subst.
      assert (a = b) as ->.
      { assert (In a (b :: l2)) as Ia
          by (eapply Permutation_in; [exact Hp|now left]).
        assert (In b (a :: l1)) as Ib
          by (eapply Permutation_in; [symmetry; exact Hp|now left]).
        rewrite Forall_forall in F1, F2.
        destruct Ia as [->|Ia]; [reflexivity|].
        destruct Ib as [->|Ib]; [reflexivity|].
        specialize (F1 _ Ib). specialize (F2 _ Ia). lia. }
      f_equal. apply IH; try assumption.
      now apply Permutation_cons_inv in Hp.
Qed.

Lemma started_ascending l :
  StronglySorted startedLe l -> StronglySorted Z.le (map entry_started l).
Proof.
  induction 1 as [|a l Hs IH Hf]; cbn; constructor; [assumption|].
  rewrite Forall_map. exact Hf.
Qed.

(** Reordering the loading list changes neither the entries emitted nor
    the sequence of their start times. *)
Lemma downloadsSlice_reordered (loading loading' : list DownloadingId) :
  Permutation loading loading' ->
  Permutation (entries (downloadsSlice loading)) (entries (downloadsSlice loading'))
  /\ map entry_started (entries (downloadsSlice loading))
     = map entry_started (entries (downloadsSlice loading')).
Proof.
  intros Hp. cbn.
  assert (Permutation (sortByStarted (map entryOf loading))
                      (sortByStarted (map entryOf loading'))) as Hq.
  { etransitivity; [symmetry; apply sortByStarted_perm|].
    etransitivity; [|apply sortByStarted_perm].
    now apply Permutation_map. }
  split; [exact Hq|].
  apply ascending_unique.
  - apply started_ascending, sortByStarted_sorted.
  - apply started_ascending, sortByStarted_sorted.
  - now apply Permutation_map.
Qed.

(** C6.  [downloadsSource] emits once at subscription and once per change
    notification; each emission is rebuilt from the loading list of its
    moment, holds exactly one entry per in-flight item with that item's
    message reference and start time, and is ordered non-decreasing by
    [started]; a reordering of the loading list gives the same entries in
    an order with the same start times. *)
Theorem downloadsSource_rebuilds_sorted
    (current : list DownloadingId) (changes : list (list DownloadingId)) :
  List.length (downloadsSource current changes) = S (List.length changes)
  /\ Forall2
       (fun loading slice =>
          slice = downloadsSlice loading
          /\ Permutation
               (map (fun id => {| entry_item := item (object id);
                                  entry_started := started id |}) loading)
               (entries slice)
          /\ StronglySorted
               (fun a b => entry_started a <= entry_started b) (entries slice)
          /\ forall loading',
               Permutation loading loading' ->
               Permutation (entries slice) (entries (downloadsSlice loading'))
               /\ map entry_started (entries slice)
                  = map entry_started (entries (downloadsSlice loading')))
       (current :: changes) (downloadsSource current changes).
Proof.
  unfold downloadsSource. split; [cbn; now rewrite List.length_map|].
  induction (current :: changes) as [|loading rest IH]; cbn; constructor;
    [|exact IH].
  split; [reflexivity|]. split; [apply sortByStarted_perm|].
  split; [apply sortByStarted_sorted|].
  intros loading' Hp. now apply downloadsSlice_reordered.
Qed.

Lemma downloadsSource_rebuilds_sorted_witness :
  map entry_started (entries (downloadsSlice someLoading)) = [10; 20; 30]
  /\ map entry_started (entries (downloadsSlice (rev someLoading)))
     = map entry_started (entries (downloadsSlice someLoading)).
Proof.
  split; [reflexivity|].
  destruct (downloadsSource_rebuilds_sorted someLoading []) as [_ H].
  inversion H as [|? ? ? ? Hfirst _]; subst.
  destruct Hfirst as (_ & _ & _ & Hre).
  symmetry. apply Hre, Permutation_rev.
Defined.

(** ** Base media source *)

(** C7.  When the Key resolves to a peer and the section is a Media
    section (the only sections that have a media type), the base
    [mediaSource] asks the scheduled viewer if the message stored for that
    peer at [aroundId] is a scheduled one and the merged-history viewer
    otherwise (also when there is no such message); in both cases the
    viewer is keyed with the peer's id, the migrated peer's id (0 without a
    migrated peer), the anchor id and the section's media type, and
    receives the two limits.  When the Key does not resolve to a peer the
    call fails its [Expects]; for a peer in a section that is not Media it
    stops at the precondition of the section's media type. *)
Theorem AbstractController_mediaSource_viewer
    (Delegate C : Type) (base : AbstractController C)
    (data : DataSession) (c : C) (aroundId : MsgId) (limitBefore limitAfter : Z) :
  (peer c = None ->
   AbstractController_mediaSource (Delegate := Delegate)
     data c aroundId limitBefore limitAfter = Abort ExpectsViolation)
  /\ (forall p, peer c = Some p ->
      (type (section c) = Media ->
       let key_ :=
         {| mergedKey :=
              {| k_peerId := peer_id (peerAt data p);
                 k_migratedPeerId :=
                   match migrated c with
                   | Some m => peer_id (peerAt data m)
                   | None => 0
                   end;
                 k_universalId := aroundId |};
            k_type := mediaType (section c) |} in
       ((exists item_,
           message data (peer_id (peerAt data p)) aroundId = Some item_
           /\ isScheduled item_ = true) ->
        AbstractController_mediaSource (Delegate := Delegate)
          data c aroundId limitBefore limitAfter
        = Done (SharedScheduledMediaViewer key_ limitBefore limitAfter))
       /\ (~ (exists item_,
                message data (peer_id (peerAt data p)) aroundId = Some item_
                /\ isScheduled item_ = true) ->
           AbstractController_mediaSource (Delegate := Delegate)
             data c aroundId limitBefore limitAfter
           = Done (SharedMediaMergedViewer key_ limitBefore limitAfter)))
      /\ (type (section c) <> Media ->
          AbstractController_mediaSource (Delegate := Delegate)
            data c aroundId limitBefore limitAfter
          = Abort ExpectsViolation)).
Proof.
  unfold AbstractController_mediaSource, migratedPeerId, Section_mediaType.
  split.
  - intros ->. reflexivity.
  - intros p ->. split.
    + intros ->. cbn.
      destruct (message data (peer_id (peerAt data p)) aroundId) as [i|] eqn:Hm.
      * destruct (isScheduled i) eqn:Hs; split; intros H.
        -- reflexivity.
        -- exfalso. apply H. now exists i.
        -- destruct H as (j & Hj & Hjs). congruence.
        -- reflexivity.
      * split; intros H.
        -- destruct H as (j & Hj & _). discriminate.
        -- reflexivity.
    + intros Hother.
      destruct (type (section c)); cbn; try reflexivity. contradiction.
Qed.

Lemma AbstractController_mediaSource_viewer_witness :
  AbstractController_mediaSource (Delegate := SearchQuery)
    sampleData (blank photosSnapshot) 7 10 10
  = Done (SharedScheduledMediaViewer
            {| mergedKey := {| k_peerId := 101; k_migratedPeerId := 0;
                               k_universalId := 7 |};
               k_type := Photo |} 10 10)
  /\ AbstractController_mediaSource (Delegate := SearchQuery)
       sampleData (blank photosSnapshot) 8 10 10
     = Done (SharedMediaMergedViewer
               {| mergedKey := {| k_peerId := 101; k_migratedPeerId := 0;
                                  k_universalId := 8 |};
                  k_type := Photo |} 10 10)
  /\ AbstractController_mediaSource (Delegate := SearchQuery)
       sampleData (blank downloadsSnapshot) 7 10 10
     = Abort ExpectsViolation
  /\ AbstractController_mediaSource (Delegate := SearchQuery)
       sampleData (blank profileSnapshot) 8 10 10
     = Abort ExpectsViolation.
Proof.
  split; [|split; [|split]].
  - apply (proj1 (proj1 (proj2 (AbstractController_mediaSource_viewer
             SearchQuery Controller Controller_base
             sampleData (blank photosSnapshot) 7 10 10) (PeerAt 1) eq_refl)
             eq_refl)).
    exists {| isScheduled := true |}. split; reflexivity.
  - apply (proj2 (proj1 (proj2 (AbstractController_mediaSource_viewer
             SearchQuery Controller Controller_base
             sampleData (blank photosSnapshot) 8 10 10) (PeerAt 1) eq_refl)
             eq_refl)).
    intros (i & Hi & Hs). cbn in Hi. injection Hi as <-. discriminate.
  - apply (proj1 (AbstractController_mediaSource_viewer
             SearchQuery Controller Controller_base
             sampleData (blank downloadsSnapshot) 7 10 10)).
    reflexivity.
  - apply (proj2 (proj2 (AbstractController_mediaSource_viewer
             SearchQuery Controller Controller_base
             sampleData (blank profileSnapshot) 8 10 10) (PeerAt 1) eq_refl)).
    discriminate.
Defined.

(** ** Snapshot validation *)

Lemma PeerPtr_eqb_eq a b : PeerPtr_eqb a b = true <-> a = b.
Proof.
  destruct a as [x], b as [y]; cbn. rewrite Nat.eqb_eq.
  split; [now intros ->|now intros [= ->]].
Qed.

Lemma UserPtr_eqb_eq a b : UserPtr_eqb a b = true <-> a = b.
Proof.
  destruct a as [x], b as [y]; cbn. rewrite Nat.eqb_eq.
  split; [now intros ->|now intros [= ->]].
Qed.

Lemma ptr_eqb_eq {A} (eqb : A -> A -> bool) :
  (forall x y, eqb x y = true <-> x = y) ->
  forall a b, ptr_eqb eqb a b = true <-> a = b.
Proof.
  intros Heq [x|] [y|]; cbn; try (split; [discriminate|intros [=]]).
  - rewrite Heq. split; [now intros ->|now intros [= ->]].
  - split; reflexivity.
Qed.

(** C8.  [validateMementoPeer] answers true exactly when the snapshot's
    peer, migrated-peer id and settings owner are equal to the
    controller's; hence one differing component is enough for false. *)
Theorem validateMementoPeer_iff
    (SavedState Delegate : Type) (ext : Collaborators SavedState Delegate)
    (data : DataSession) (c : @Controller Delegate)
    (memento : ContentMemento SavedState) :
  (validateMementoPeer data c memento = true
   <-> memento_peer memento = peer c
       /\ _migratedPeerId memento = migratedPeerId data c
       /\ memento_settingsSelf memento = settingsSelf c)
  /\ (memento_peer memento <> peer c
      \/ _migratedPeerId memento <> migratedPeerId data c
      \/ memento_settingsSelf memento <> settingsSelf c ->
      validateMementoPeer data c memento = false).
Proof.
  assert (validateMementoPeer data c memento = true
          <-> memento_peer memento = peer c
              /\ _migratedPeerId memento = migratedPeerId data c
              /\ memento_settingsSelf memento = settingsSelf c) as Hiff.
  { unfold validateMementoPeer.
    rewrite !andb_true_iff, Z.eqb_eq.
    rewrite (ptr_eqb_eq _ PeerPtr_eqb_eq), (ptr_eqb_eq _ UserPtr_eqb_eq).
    tauto. }
  split; [exact Hiff|].
  intros Hne. destruct (validateMementoPeer data c memento) eqn:Hv;
    [|reflexivity].
  exfalso. destruct Hiff as [Hto _]. destruct (Hto eq_refl) as (Hp & Hm & Hs).
  destruct Hne as [H|[H|H]]; contradiction.
Qed.

Lemma validateMementoPeer_iff_witness :
  validateMementoPeer sampleData (blank photosSnapshot) filesSnapshot = true
  /\ validateMementoPeer sampleData (blank photosSnapshot) downloadsSnapshot = false.
Proof.
  split.
  - apply (proj1 (validateMementoPeer_iff _ _ DirectSearch
             sampleData (blank photosSnapshot) filesSnapshot)).
    repeat split; reflexivity.
  - apply (proj2 (validateMementoPeer_iff _ _ DirectSearch
             sampleData (blank photosSnapshot) downloadsSnapshot)).
    left. discriminate.
Defined.

(** ** Search delegates *)

Section SearchDelegates.

Context {SavedState Delegate : Type} {ext : Collaborators SavedState Delegate}.

Implicit Types (c : @Controller Delegate) (memento : ContentMemento SavedState).

Lemma SectionType_eqb_eq a b : SectionType_eqb a b = true <-> a = b.
Proof. destruct a, b; cbn; split; congruence. Qed.

(** What a completed [updateSearchControllers] has done to the
    controller. *)
Lemma updateSearchControllers_done data c memento c' :
  updateSearchControllers data c memento = Done c' ->
  (_parent c' = _parent c /\ _widget c' = _widget c /\ _key c' = _key c
   /\ _migrated c' = _migrated c /\ _section c' = _section c
   /\ lifetime c' = lifetime c)
  /\ isSome (_searchController c') = SectionType_eqb (type (_section c)) Media
  /\ _searchFieldController c'
     = (if supportsSearch (_section c)
        then Some {| query := searchFieldQuery memento;
                     forwardsQuery := SectionType_eqb (type (_section c)) Media |}
        else None)
  /\ _seachEnabledByContent c'
     = (if supportsSearch (_section c) then searchEnabledByContent memento
        else _seachEnabledByContent c).
Proof.
  unfold updateSearchControllers, supportsSearch, restoreSearchController,
    forwardQuery, produceSearchQuery.
  destruct (SectionType_eqb (type (_section c)) Media) eqn:Hmedia; cbn.
  - destruct (asMedia memento) as [mm|]; cbn; [|discriminate].
    destruct (SharedMediaAllowSearch (mediaType (_section c)) ||
              SectionType_eqb (type (_section c)) CommonGroups ||
              (SectionType_eqb (type (_section c)) Members ||
               SectionType_eqb (type (_section c)) Profile)); cbn.
    + destruct (Key.peer (_key c)); cbn; [|discriminate].
      intros [= <-]; cbn. repeat split; reflexivity.
    + intros [= <-]; cbn. repeat split; reflexivity.
  - destruct (SectionType_eqb (type (_section c)) CommonGroups ||
              (SectionType_eqb (type (_section c)) Members ||
               SectionType_eqb (type (_section c)) Profile)); cbn;
      intros [= <-]; cbn; repeat split; reflexivity.
Qed.

(** Outside Media sections nothing can stop [updateSearchControllers]. *)
Lemma updateSearchControllers_completes_not_media data c memento :
  type (_section c) <> Media ->
  exists c', updateSearchControllers data c memento = Done c'.
Proof.
  intros Hne. unfold updateSearchControllers, restoreSearchController.
  destruct (SectionType_eqb (type (_section c)) Media) eqn:Hmedia.
  - apply SectionType_eqb_eq in Hmedia. contradiction.
  - cbn.
    destruct (SectionType_eqb (type (_section c)) CommonGroups ||
              (SectionType_eqb (type (_section c)) Members ||
               SectionType_eqb (type (_section c)) Profile)); cbn;
      eexists; reflexivity.
Qed.

Lemma supportsSearch_iff (s : InfoSection) :
  supportsSearch s = true
  <-> (type s = Media /\ SharedMediaAllowSearch (mediaType s) = true)
      \/ type s = CommonGroups
      \/ (type s = Members \/ type s = Profile).
Proof.
  unfold supportsSearch. cbn zeta.
  rewrite !orb_true_iff, andb_true_iff, !SectionType_eqb_eq.
  destruct (SectionType_eqb (type s) Media) eqn:Hm.
  - tauto.
  - assert (type s <> Media) by (rewrite <- SectionType_eqb_eq; congruence).
    intuition discriminate.
Qed.

Lemma isSome_true {A} (o : option A) : isSome o = true <-> o <> None.
Proof. destruct o; cbn; split; congruence. Qed.

(** C3.  When [updateSearchControllers] has run, the content-search
    delegate exists exactly for a Media section, and the query-field
    delegate exists exactly when the section has media search,
    common-groups search or members search, its text being the
    snapshot's saved query; for a Downloads section the call always runs
    through and leaves neither delegate. *)
Theorem updateSearchControllers_delegates data c memento :
  (forall c', updateSearchControllers data c memento = Done c' ->
     _section c' = _section c
     /\ (_searchController c' <> None <-> type (_section c) = Media)
     /\ (_searchFieldController c' <> None
         <-> (type (_section c) = Media
              /\ SharedMediaAllowSearch (mediaType (_section c)) = true)
             \/ type (_section c) = CommonGroups
             \/ (type (_section c) = Members \/ type (_section c) = Profile))
     /\ (forall field, _searchFieldController c' = Some field ->
           query field = searchFieldQuery memento))
  /\ (type (_section c) = DownloadsSection ->
      exists c', updateSearchControllers data c memento = Done c'
                 /\ _searchController c' = None
                 /\ _searchFieldController c' = None).
Proof.
  split.
  - intros c' Hdone.
    destruct (updateSearchControllers_done _ _ _ _ Hdone)
      as ((_ & _ & _ & _ & Hsec & _) & Hsc & Hfield & _).
    split; [exact Hsec|]. split; [|split].
    + rewrite <- isSome_true, Hsc. apply SectionType_eqb_eq.
    + rewrite <- supportsSearch_iff, Hfield.
      destruct (supportsSearch (_section c)); split; congruence.
    + intros field Hf. rewrite Hfield in Hf.
      destruct (supportsSearch (_section c)); [|discriminate].
      now injection Hf as <-.
  - intros Hd.
    destruct (updateSearchControllers_completes_not_media data c memento)
      as [c' Hdone]; [congruence|].
    exists c'. split; [exact Hdone|].
    destruct (updateSearchControllers_done _ _ _ _ Hdone)
      as (_ & Hsc & Hfield & _).
    unfold supportsSearch in Hfield. rewrite Hd in Hsc, Hfield. cbn in Hsc, Hfield.
    split; [|exact Hfield].
    destruct (_searchController c'); [discriminate|reflexivity].
Qed.

(** What a completed [saveSearchState] has written. *)
Lemma saveSearchState_done c memento memento' :
  saveSearchState c memento = Done memento' ->
  match _searchFieldController c with
  | Some field =>
      searchFieldQuery memento' = query field
      /\ searchEnabledByContent memento' = _seachEnabledByContent c
  | None =>
      searchFieldQuery memento' = searchFieldQuery memento
      /\ searchEnabledByContent memento' = searchEnabledByContent memento
  end.
Proof.
  unfold saveSearchState.
  destruct (_searchFieldController c) as [field|];
    destruct (_searchController c) as [d|]; cbn;
    try (destruct (asMedia memento); cbn; [|discriminate]);
    intros [= <-]; cbn; split; reflexivity.
Qed.

(** C4, as the code has it.  After [updateSearchControllers(snapshot)]
    and an immediate [saveSearchState(snapshot2)], both completed:
    if the section supports search (a query-field delegate was created),
    [snapshot2] carries the query text and the enabled-by-content flag of
    [snapshot]; otherwise [saveSearchState] leaves both fields of
    [snapshot2] as they were. *)
Theorem search_state_round_trip data c snapshot snapshot2 c' snapshot2' :
  updateSearchControllers data c snapshot = Done c' ->
  saveSearchState c' snapshot2 = Done snapshot2' ->
  (supportsSearch (_section c) = true ->
   _searchFieldController c' <> None
   /\ searchFieldQuery snapshot2' = searchFieldQuery snapshot
   /\ searchEnabledByContent snapshot2' = searchEnabledByContent snapshot)
  /\ (supportsSearch (_section c) = false ->
      _searchFieldController c' = None
      /\ searchFieldQuery snapshot2' = searchFieldQuery snapshot2
      /\ searchEnabledByContent snapshot2' = searchEnabledByContent snapshot2).
Proof.
  intros Hupdate Hsave.
  destruct (updateSearchControllers_done _ _ _ _ Hupdate)
    as (_ & _ & Hfield & Henabled).
  apply saveSearchState_done in Hsave.
  rewrite Hfield in Hsave |- *.
  destruct (supportsSearch (_section c)); cbn in Hsave;
    destruct Hsave as [Hq He];
    (split; intros Hs; [try discriminate Hs|try discriminate Hs]);
    repeat split; congruence.
Qed.

(** C9.  With a snapshot that is not of Media kind, restoring in a Media
    section and saving while a content-search delegate exists both stop
    at their [Assert].  With a Media-kind snapshot neither assertion can
    fire: the restore step yields the restored delegate, saving always
    completes, and the only way [updateSearchControllers] can still stop
    is the [Expects] of [produceSearchQuery] for a Key without a peer. *)
Theorem search_state_snapshot_kind data c memento :
  (asMedia memento = None ->
   (type (_section c) = Media ->
    updateSearchControllers data c memento = Abort AssertViolation)
   /\ (_searchController c <> None ->
       saveSearchState c memento = Abort AssertViolation))
  /\ (forall mediaMemento, asMedia memento = Some mediaMemento ->
      restoreSearchController true memento
      = Done (Some (restoreState (searchState mediaMemento) makeDelegate))
      /\ updateSearchControllers data c memento <> Abort AssertViolation
      /\ (forall f, updateSearchControllers data c memento = Abort f ->
            f = ExpectsViolation /\ Key.peer (_key c) = None)
      /\ (Key.peer (_key c) <> None ->
          exists c', updateSearchControllers data c memento = Done c')
      /\ (exists memento',
            saveSearchState c memento = Done memento'
            /\ forall d, _searchController c = Some d ->
                  asMedia memento' = Some {| searchState := saveState d |})).
Proof.
  split.
  - intros Hkind. split.
    + intros Hmedia. unfold updateSearchControllers, restoreSearchController.
      rewrite Hmedia, Hkind. reflexivity.
    + intros Hsc. unfold saveSearchState.
      destruct (_searchController c) as [d|]; [|contradiction].
      destruct (_searchFieldController c); cbn; rewrite Hkind; reflexivity.
  - intros mm Hkind.
    assert (forall f, updateSearchControllers data c memento = Abort f ->
              f = ExpectsViolation /\ Key.peer (_key c) = None) as Habort.
    { intros f. unfold updateSearchControllers, restoreSearchController,
        forwardQuery, produceSearchQuery. rewrite Hkind.
      destruct (SectionType_eqb (type (_section c)) Media); cbn.
      - destruct (SharedMediaAllowSearch (mediaType (_section c)) ||
                  SectionType_eqb (type (_section c)) CommonGroups ||
                  (SectionType_eqb (type (_section c)) Members ||
                   SectionType_eqb (type (_section c)) Profile)); cbn;
          [|discriminate].
        destruct (Key.peer (_key c)); cbn; [discriminate|].
        intros [= <-]. split; reflexivity.
      - destruct (SectionType_eqb (type (_section c)) CommonGroups ||
                  (SectionType_eqb (type (_section c)) Members ||
                   SectionType_eqb (type (_section c)) Profile)); cbn;
          discriminate. }
    split; [|split; [|split; [|split]]].
    + unfold restoreSearchController. rewrite Hkind. reflexivity.
    + intros Hf. apply Habort in Hf. destruct Hf as [Hf _]. discriminate.
    + exact Habort.
    + intros Hpeer.
      destruct (updateSearchControllers data c memento) as [c'|f] eqn:Hrun.
      * now exists c'.
      * destruct (Habort f eq_refl) as [_ Hnone]. contradiction.
    + unfold saveSearchState.
      destruct (_searchFieldController c); destruct (_searchController c);
        cbn; try rewrite Hkind; eexists; (split; [reflexivity|]);
        intros d' [= <-]; reflexivity.
Qed.

End SearchDelegates.

(** ** The controller over its life *)

Section Lifecycle.

Context {SavedState Delegate : Type} {ext : Collaborators SavedState Delegate}.

Implicit Types (c : @Controller Delegate) (memento : ContentMemento SavedState).

Lemma setSection_done data c memento c' :
  setSection data c memento = Done c' ->
  sameIdentity c c' /\ delegateMatchesSection c'
  /\ _section c' = memento_section memento.
Proof.
  unfold setSection. intros Hdone.
  apply updateSearchControllers_done in Hdone. cbn in Hdone.
  destruct Hdone as ((Hp & Hw & Hk & Hm & Hs & Hl) & Hsc & _).
  unfold sameIdentity, delegateMatchesSection. rewrite Hs. tauto.
Qed.

Lemma fieldQueryChanged_done data c text c' :
  fieldQueryChanged data c text = Done c' ->
  sameIdentity c c' /\ _section c' = _section c
  /\ isSome (_searchController c') = isSome (_searchController c).
Proof.
  unfold fieldQueryChanged, sameIdentity.
  destruct (_searchFieldController c) as [field|].
  - destruct (forwardsQuery field).
    + destruct (_searchController c) as [d|]; cbn; [|discriminate].
      destruct (forwardQuery data c text d); cbn; [|discriminate].
      intros [= <-]; cbn. tauto.
    + cbn. intros [= <-]; cbn. tauto.
  - intros [= <-]. tauto.
Qed.

Lemma evolves_sameIdentity c0 c : evolves c0 c -> sameIdentity c0 c.
Proof.
  induction 1 as [|data c memento c' _ IH Hstep|data c text c' _ IH Hstep
                 |c d' _ IH].
  - unfold sameIdentity. tauto.
  - apply setSection_done in Hstep. destruct Hstep as (Hid & _).
    unfold sameIdentity in *. intuition congruence.
  - apply fieldQueryChanged_done in Hstep. destruct Hstep as (Hid & _).
    unfold sameIdentity in *. intuition congruence.
  - exact IH.
Qed.

Lemma evolves_delegate c0 c :
  delegateMatchesSection c0 -> evolves c0 c -> delegateMatchesSection c.
Proof.
  intros H0.
  induction 1 as [|data c memento c' _ IH Hstep|data c text c' _ IH Hstep
                 |c d' _ IH].
  - exact H0.
  - apply setSection_done in Hstep. tauto.
  - apply fieldQueryChanged_done in Hstep. destruct Hstep as (_ & Hs & Hsc).
    unfold delegateMatchesSection in *. congruence.
  - unfold delegateMatchesSection in *. cbn.
    destruct (_searchController c); exact IH.
Qed.

(** What the migration viewer's setup leaves untouched, and what it
    subscribes to. *)
Lemma setupMigrationViewer_done data c :
  let c' := fst (setupMigrationViewer data c) in
  _parent c' = _parent c /\ _widget c' = _widget c /\ _key c' = _key c
  /\ _migrated c' = _migrated c /\ _section c' = _section c
  /\ _searchController c' = _searchController c
  /\ forall p, Key.peer (_key c) = Some p ->
       isChat (peerAt data p) = true \/ isChannel (peerAt data p) = true ->
       _migrated c = None ->
       lifetime c' = {| watched := p; flag := MigrationFlag |} :: lifetime c.
Proof.
  unfold setupMigrationViewer.
  destruct (Key.peer (_key c)) as [q|]; cbn.
  - destruct (negb (isChat (peerAt data q)) && negb (isChannel (peerAt data q))
              || isSome (_migrated c)) eqn:Hskip; cbn;
      do 6 (split; [reflexivity|]);
      intros p [= <-] Hkind Hnone; [exfalso|reflexivity].
    rewrite Hnone in Hskip. cbn in Hskip.
    destruct Hkind as [Hkind|Hkind]; rewrite Hkind in Hskip; cbn in Hskip;
      [|rewrite andb_false_r in Hskip]; discriminate.
  - do 6 (split; [reflexivity|]). discriminate.
Qed.

Lemma Controller_new_done data widget window memento c0 queued0 :
  Controller_new data widget window memento = Done (c0, queued0) ->
  _parent c0 = window /\ _widget c0 = widget /\ _key c0 = memento_key memento
  /\ _section c0 = memento_section memento
  /\ delegateMatchesSection c0
  /\ forall p, Key.peer (_key c0) = Some p ->
       isChat (peerAt data p) = true \/ isChannel (peerAt data p) = true ->
       _migrated c0 = None ->
       lifetime c0 = [ {| watched := p; flag := MigrationFlag |} ].
Proof.
  unfold Controller_new.
  destruct (updateSearchControllers _ _ memento) as [c1|] eqn:Hupdate;
    cbn; [|discriminate].
  intros [= Hpair].
  assert (fst (setupMigrationViewer data c1) = c0) as Hc0
    by now rewrite Hpair.
  apply updateSearchControllers_done in Hupdate. cbn in Hupdate.
  destruct Hupdate as ((Hp & Hw & Hk & Hm & Hs & Hl) & Hsc & _).
  pose proof (setupMigrationViewer_done data c1) as Hsetup.
  cbn zeta in Hsetup. rewrite Hc0 in Hsetup.
  destruct Hsetup as (Hp' & Hw' & Hk' & Hm' & Hs' & Hsc' & Hsub).
  unfold delegateMatchesSection.
  do 4 (split; [congruence|]).
  split; [rewrite Hsc', Hs', Hs; exact Hsc|].
  intros p Hpeer Hkind Hnone.
  rewrite Hk' in Hpeer. rewrite Hm' in Hnone.
  rewrite (Hsub p Hpeer Hkind Hnone), Hl. reflexivity.
Qed.

Lemma constructed_delegate c : constructed c -> delegateMatchesSection c.
Proof.
  intros (data & widget & window & memento & c0 & queued0 & Hnew & Hev).
  apply Controller_new_done in Hnew.
  eapply evolves_delegate; [|exact Hev]. tauto.
Qed.

Lemma isEmpty_true (q : QString) : isEmpty q = true <-> q = EmptyString.
Proof. destruct q; cbn; split; congruence. Qed.

(** C2.  A controller showing a Media section has a content-search
    delegate, and its [mediaSource] returns that delegate's [idsSlice] for
    the given anchor and limits when the delegate's current query text is
    not empty, and otherwise the merged-history viewer keyed by the
    peer id, migrated-peer id and media type stored in the delegate's
    current query, with the given anchor and limits. *)
Theorem Controller_mediaSource_search_or_history
    c (aroundId : MsgId) (limitBefore limitAfter : Z) :
  constructed c ->
  type (_section c) = Media ->
  exists searchController,
    _searchController c = Some searchController
    /\ (q_query (currentQuery searchController) <> EmptyString ->
        Controller_mediaSource c aroundId limitBefore limitAfter
        = Done (idsSlice searchController aroundId limitBefore limitAfter))
    /\ (q_query (currentQuery searchController) = EmptyString ->
        Controller_mediaSource c aroundId limitBefore limitAfter
        = Done (SharedMediaMergedViewer
                  {| mergedKey :=
                       {| k_peerId := q_peerId (currentQuery searchController);
                          k_migratedPeerId :=
                            q_migratedPeerId (currentQuery searchController);
                          k_universalId := aroundId |};
                     k_type := q_type (currentQuery searchController) |}
                  limitBefore limitAfter)).
Proof.
  intros Hc Hmedia. apply constructed_delegate in Hc.
  unfold delegateMatchesSection in Hc. rewrite Hmedia in Hc. cbn in Hc.
  unfold Controller_mediaSource.
  destruct (_searchController c) as [d|]; [|discriminate].
  exists d. split; [reflexivity|].
  destruct (isEmpty (q_query (currentQuery d))) eqn:He; cbn; split; intros H.
  - apply isEmpty_true in He. contradiction.
  - reflexivity.
  - reflexivity.
  - apply isEmpty_true in H. congruence.
Qed.

(** C10.  [Controller::mediaSource] dereferences the content-search
    delegate before anything else: it is undefined exactly when the
    delegate is absent and returns a producer whenever it is present.
    For a controller in use the delegate is present exactly in a Media
    section, so there the dereference is always defined, and in every
    other section the call is undefined. *)
Theorem Controller_mediaSource_needs_delegate
    c (aroundId : MsgId) (limitBefore limitAfter : Z) :
  (Controller_mediaSource c aroundId limitBefore limitAfter = Abort NullDereference
   <-> _searchController c = None)
  /\ (_searchController c <> None ->
      exists producer,
        Controller_mediaSource c aroundId limitBefore limitAfter = Done producer)
  /\ (constructed c ->
      (_searchController c <> None <-> type (_section c) = Media)
      /\ (type (_section c) = Media ->
          exists producer,
            Controller_mediaSource c aroundId limitBefore limitAfter = Done producer)
      /\ (type (_section c) <> Media ->
          Controller_mediaSource c aroundId limitBefore limitAfter
          = Abort NullDereference)).
Proof.
  assert (forall d, _searchController c = Some d ->
            exists producer,
              Controller_mediaSource c aroundId limitBefore limitAfter
              = Done producer) as Hdefined.
  { intros d Hd. unfold Controller_mediaSource. rewrite Hd.
    destruct (negb (isEmpty (q_query (currentQuery d)))); eexists; reflexivity. }
  assert (_searchController c = None ->
          Controller_mediaSource c aroundId limitBefore limitAfter
          = Abort NullDereference) as Hundefined.
  { intros Hn. unfold Controller_mediaSource. now rewrite Hn. }
  split; [|split].
  - split; [|exact Hundefined].
    destruct (_searchController c) as [d|] eqn:Hd; [|reflexivity].
    destruct (Hdefined d eq_refl) as [producer ->]. discriminate.
  - destruct (_searchController c) as [d|] eqn:Hd; [|contradiction].
    intros _. now apply (Hdefined d).
  - intros Hc. apply constructed_delegate in Hc.
    unfold delegateMatchesSection in Hc.
    assert (_searchController c <> None <-> type (_section c) = Media) as Hiff.
    { rewrite <- isSome_true, Hc. apply SectionType_eqb_eq. }
    split; [exact Hiff|]. split.
    + intros Hmedia. apply Hiff in Hmedia.
      destruct (_searchController c) as [d|] eqn:Hd; [|contradiction].
      now apply (Hdefined d).
    + intros Hne. apply Hundefined.
      destruct (_searchController c) as [d|] eqn:Hd; [|reflexivity].
      exfalso. apply Hne, Hiff. discriminate.
Qed.

Lemma migrationFilter_true data c p :
  migrationFilter data c p = true
  <-> migrateTo (peerAt data p) <> None
      \/ migrateFrom (peerAt data p) <> _migrated c.
Proof.
  unfold migrationFilter.
  rewrite orb_true_iff, isSome_true, negb_true_iff.
  pose proof (ptr_eqb_eq _ PeerPtr_eqb_eq
                (migrateFrom (peerAt data p)) (_migrated c)) as Heq.
  destruct (ptr_eqb PeerPtr_eqb (migrateFrom (peerAt data p)) (_migrated c)).
  - split; (intros [H|H]; [left; exact H|]).
    + discriminate.
    + exfalso. apply H, Heq. reflexivity.
  - split; intros _; right; [|reflexivity].
    intros Hsame. apply Heq in Hsame. discriminate.
Qed.

Lemma PeerPtr_eqb_refl p : PeerPtr_eqb p p = true.
Proof. now apply PeerPtr_eqb_eq. Qed.

(** C1.  Take a controller built by the constructor for a Key that
    resolves to a chat or channel peer, with no migrated peer recorded,
    at any later point of its life.  When a Migration update of that peer
    arrives and the peer has a migration target, or its migration source
    differs from the recorded migrated peer, the controller posts one
    guarded call to the event queue and the navigator receives nothing
    during the notification; the queued call is the navigator's
    [showSection] with a memento for the same peer and the controller's
    current Section, way Backward, instant animation, background
    activation; the next turn of the event loop delivers it, after the
    calls queued before it, if the widget is still alive. *)
Theorem migration_update_queues_showSection
    (data0 : DataSession) widget window memento c0 queued0 c (p : PeerPtr) :
  Controller_new data0 widget window memento = Done (c0, queued0) ->
  evolves c0 c ->
  Key.peer (_key c) = Some p ->
  isChat (peerAt data0 p) = true \/ isChannel (peerAt data0 p) = true ->
  _migrated c = None ->
  forall (data : DataSession) (w : World),
    migrateTo (peerAt data p) <> None
    \/ migrateFrom (peerAt data p) <> _migrated c ->
    let call :=
      showSection window
        {| shown_peer := p; shown_section := _section c |}
        {| way := Backward; animated := instant; activation := background |} in
    let w' := notifyPeerUpdate data c p MigrationFlag w in
    queue w' = queue w ++ [ {| guard := widget; callback := call |} ]
    /\ navigator w' = navigator w
    /\ forall alive, alive widget = true ->
         navigator (processEvents alive w')
         = navigator (processEvents alive w) ++ [call].
Proof.
  intros Hnew Hev Hpeer Hkind Hnone data w Hfilter.
  apply Controller_new_done in Hnew.
  destruct Hnew as (Hp0 & Hw0 & _ & _ & _ & Hsub).
  apply evolves_sameIdentity in Hev.
  destruct Hev as (Hp & Hw & Hk & Hm & Hl).
  rewrite Hk in Hpeer. pose proof Hnone as Hnone0. rewrite Hm in Hnone0.
  specialize (Hsub p Hpeer Hkind Hnone0).
  apply migrationFilter_true in Hfilter.
  assert (peerUpdated data c p MigrationFlag
          = [ {| guard := widget;
                 callback :=
                   showSection window
                     {| shown_peer := p; shown_section := _section c |}
                     {| way := Backward; animated := instant;
                        activation := background |} |} ]) as Hqueued.
  { unfold peerUpdated. rewrite Hl, Hsub. cbn.
    rewrite PeerPtr_eqb_refl. cbn. unfold migrationDelivery.
    rewrite Hfilter. cbn. unfold migrationNext. cbn.
    rewrite Hp, Hw, Hp0, Hw0. reflexivity. }
  cbn zeta. unfold notifyPeerUpdate, processEvents. cbn.
  rewrite Hqueued. split; [reflexivity|]. split; [reflexivity|].
  intros alive Halive.
  rewrite filter_app, map_app. cbn. rewrite Halive. cbn.
  now rewrite app_assoc.
Qed.

End Lifecycle.

(** ** The properties at work on the sample session *)

Lemma profileController_constructed : constructed profileController.
Proof.
  exists sampleData, (WidgetAt 0), (WindowAt 0), profileSnapshot,
    profileController, [].
  split; [reflexivity|apply evolves_refl].
Qed.

Lemma filesController_constructed : constructed filesController.
Proof.
  exists sampleData, (WidgetAt 0), (WindowAt 0), filesSnapshot,
    filesController, [].
  split; [reflexivity|apply evolves_refl].
Qed.

Lemma photosController_constructed : constructed photosController.
Proof.
  exists sampleData, (WidgetAt 0), (WindowAt 0), photosSnapshot,
    photosController, [].
  split; [reflexivity|apply evolves_refl].
Qed.

(** The profile panel of the group, switched to its photos. *)
Lemma profile_to_photos : evolves profileController photosController.
Proof.
  apply (evolves_setSection _ sampleData profileController photosSnapshot).
  - apply evolves_refl.
  - reflexivity.
Qed.

Lemma updateSearchControllers_delegates_witness :
  (updateSearchControllers sampleData (blank filesSnapshot) filesSnapshot
   = Done filesRestored
   /\ _searchController filesRestored <> None
   /\ _searchFieldController filesRestored <> None
   /\ forall field, _searchFieldController filesRestored = Some field ->
         query field = cats)
  /\ (exists c',
        updateSearchControllers sampleData (blank downloadsSnapshot)
          downloadsSnapshot = Done c'
        /\ _searchController c' = None
        /\ _searchFieldController c' = None).
Proof.
  split.
  - split; [reflexivity|].
    destruct (proj1 (@updateSearchControllers_delegates _ _ DirectSearch
                       sampleData (blank filesSnapshot) filesSnapshot)
                filesRestored eq_refl) as (_ & Hsc & Hfield & Hquery).
    split; [|split].
    + apply Hsc. reflexivity.
    + apply Hfield. left. split; reflexivity.
    + exact Hquery.
  - apply (proj2 (@updateSearchControllers_delegates _ _ DirectSearch
                    sampleData (blank downloadsSnapshot) downloadsSnapshot)).
    reflexivity.
Defined.

(** C4 as stated fails: for the downloads section no query-field delegate
    is created, so saving into a new snapshot right after restoring from a
    snapshot that carries the text "cats" and the enabled flag leaves the
    new snapshot's empty text and cleared flag in place. *)
Lemma round_trip_fails_without_query_field :
  updateSearchControllers sampleData (blank downloadsSnapshot) downloadsSnapshot
  = Done downloadsRestored
  /\ saveSearchState downloadsRestored freshDownloadsSnapshot
     = Done downloadsSaved
  /\ searchFieldQuery downloadsSnapshot = cats
  /\ searchFieldQuery downloadsSaved = EmptyString
  /\ searchFieldQuery downloadsSaved <> searchFieldQuery downloadsSnapshot
  /\ searchEnabledByContent downloadsSaved
     <> searchEnabledByContent downloadsSnapshot.
Proof.
  repeat split; try reflexivity; discriminate.
Qed.

Lemma search_state_round_trip_witness :
  (searchFieldQuery filesSaved = searchFieldQuery filesSnapshot
   /\ searchEnabledByContent filesSaved = searchEnabledByContent filesSnapshot)
  /\ (searchFieldQuery downloadsSaved = searchFieldQuery freshDownloadsSnapshot
      /\ searchEnabledByContent downloadsSaved
         = searchEnabledByContent freshDownloadsSnapshot).
Proof.
  split.
  - apply (proj1 (@search_state_round_trip _ _ DirectSearch
                    sampleData (blank filesSnapshot) filesSnapshot photosSnapshot
                    filesRestored filesSaved eq_refl eq_refl)).
    reflexivity.
  - apply (proj2 (@search_state_round_trip _ _ DirectSearch
                    sampleData (blank downloadsSnapshot) downloadsSnapshot
                    freshDownloadsSnapshot downloadsRestored downloadsSaved
                    eq_refl eq_refl)).
    reflexivity.
Defined.

Lemma search_state_snapshot_kind_witness :
  updateSearchControllers sampleData (blank filesSnapshot) profileSnapshot
  = Abort AssertViolation
  /\ saveSearchState filesController profileSnapshot = Abort AssertViolation
  /\ updateSearchControllers sampleData (blank filesSnapshot) filesSnapshot
     <> Abort AssertViolation
  /\ exists memento', saveSearchState filesController photosSnapshot = Done memento'.
Proof.
  split; [|split; [|split]].
  - apply (proj1 (@search_state_snapshot_kind _ _ DirectSearch
                    sampleData (blank filesSnapshot) profileSnapshot));
      reflexivity.
  - apply (proj1 (@search_state_snapshot_kind _ _ DirectSearch
                    sampleData filesController profileSnapshot));
      [reflexivity|discriminate].
  - apply (proj2 (@search_state_snapshot_kind _ _ DirectSearch
                    sampleData (blank filesSnapshot) filesSnapshot)
             _ eq_refl).
  - destruct (proj2 (@search_state_snapshot_kind _ _ DirectSearch
                       sampleData filesController photosSnapshot)
                _ eq_refl) as (_ & _ & _ & _ & memento' & Hsaved & _).
    now exists memento'.
Defined.

Lemma Controller_mediaSource_search_or_history_witness :
  Controller_mediaSource filesController 5 10 10
  = Done (idsSlice
            {| q_type := File; q_peerId := 101; q_query := cats;
               q_migratedPeerId := 0 |} 5 10 10)
  /\ Controller_mediaSource photosController 5 10 10
     = Done (SharedMediaMergedViewer
               {| mergedKey := {| k_peerId := 101; k_migratedPeerId := 0;
                                  k_universalId := 5 |};
                  k_type := Photo |} 10 10).
Proof.
  split.
  - destruct (@Controller_mediaSource_search_or_history _ _ DirectSearch filesController 5 10 10
                filesController_constructed eq_refl)
      as (d & Hd & Hsearch & _).
    cbn in Hd. injection Hd as <-. apply Hsearch. discriminate.
  - destruct (@Controller_mediaSource_search_or_history _ _ DirectSearch photosController 5 10 10
                photosController_constructed eq_refl)
      as (d & Hd & _ & Hhistory).
    cbn in Hd. injection Hd as <-. apply Hhistory. reflexivity.
Defined.

Lemma Controller_mediaSource_needs_delegate_witness :
  (exists producer, Controller_mediaSource photosController 5 10 10 = Done producer)
  /\ Controller_mediaSource profileController 5 10 10 = Abort NullDereference.
Proof.
  split.
  - apply (proj2 (proj2 (@Controller_mediaSource_needs_delegate _ _ DirectSearch
                           photosController 5 10 10))
             photosController_constructed).
    reflexivity.
  - apply (proj2 (proj2 (@Controller_mediaSource_needs_delegate _ _ DirectSearch
                           profileController 5 10 10))
             profileController_constructed).
    discriminate.
Defined.

Lemma migration_update_queues_showSection_witness :
  let call :=
    showSection (WindowAt 0)
      {| shown_peer := PeerAt 1;
         shown_section := {| type := Media; mediaType := Photo |} |}
      {| way := Backward; animated := instant; activation := background |} in
  let w' := notifyPeerUpdate migratedData photosController (PeerAt 1)
              MigrationFlag idle in
  queue w' = [ {| guard := WidgetAt 0; callback := call |} ]
  /\ navigator w' = []
  /\ navigator (processEvents (fun _ => true) w') = [call].
Proof.
  assert (Controller_new sampleData (WidgetAt 0) (WindowAt 0) profileSnapshot
          = Done (profileController, [])) as Hnew by reflexivity.
  assert (migrateTo (peerAt migratedData (PeerAt 1)) <> None
          \/ migrateFrom (peerAt migratedData (PeerAt 1))
             <> _migrated photosController) as Hmigrated
    by (left; discriminate).
  destruct (@migration_update_queues_showSection _ _ DirectSearch
              sampleData (WidgetAt 0) (WindowAt 0) profileSnapshot
              profileController [] photosController (PeerAt 1)
              Hnew profile_to_photos eq_refl (or_introl eq_refl) eq_refl
              migratedData idle Hmigrated)
    as (Hqueue & Hnav & Hloop).
  split; [exact Hqueue|]. split; [exact Hnav|].
  apply (Hloop (fun _ => true)). reflexivity.
Defined.

(* ================================================================= *)
(** * Further properties of the code *)

(** ** Keys *)

(** X1.  A Key is determined by what its accessors return: two Keys on
    which [peer()], [settingsSelf()], [isDownloads()], [poll()] and
    [pollContextId()] agree are the same Key. *)
Theorem Key_determined_by_accessors (k1 k2 : Key.t) :
  Key.peer k1 = Key.peer k2 ->
  Key.settingsSelf k1 = Key.settingsSelf k2 ->
  Key.isDownloads k1 = Key.isDownloads k2 ->
  Key.poll k1 = Key.poll k2 ->
  Key.pollContextId k1 = Key.pollContextId k2 ->
  k1 = k2.
Proof.
  destruct k1 as [p1|[s1]|[]|[q1 i1]], k2 as [p2|[s2]|[]|[q2 i2]]; cbn;
    intros Hpeer Hself Hdl Hpoll Hctx; try discriminate; try congruence.
Qed.

Lemma Key_determined_by_accessors_witness :
  Key.ofPoll (PollAt 9) {| fm_peer := 101; fm_msg := 8 |}
  = memento_key pollSnapshot.
Proof.
  apply Key_determined_by_accessors; reflexivity.
Defined.

Section SearchWiring.

Context {SavedState Delegate : Type} {ext : Collaborators SavedState Delegate}.

Implicit Types (c : @Controller Delegate) (memento : ContentMemento SavedState).

Ltac update_cases c memento :=
  unfold updateSearchControllers, supportsSearch, restoreSearchController,
    forwardQuery, produceSearchQuery;
  destruct (type (_section c)) eqn:?; cbn;
  try (destruct (asMedia memento) as [?mm|] eqn:?; cbn);
  try (destruct (SharedMediaAllowSearch (mediaType (_section c))) eqn:?; cbn);
  try (destruct (Key.peer (_key c)) as [?p|] eqn:?; cbn).

Ltac settle :=
  match goal with
  | |- exists _, _ => eexists; reflexivity
  | H : exists _, _ |- _ => destruct H as [? H]; discriminate H
  | _ => solve [intuition (discriminate || congruence)]
  end.

(** X2.  How [updateSearchControllers] can end.  It stops at its [Assert]
    exactly for a Media section with a snapshot that is not of Media kind;
    it stops at the [Expects] of [produceSearchQuery] exactly for a Media
    section with a Media-kind snapshot, a searchable media type and a Key
    without a peer; it never dereferences a null delegate; in every other
    case it completes. *)
Theorem updateSearchControllers_outcome data c memento :
  (updateSearchControllers data c memento = Abort AssertViolation
   <-> type (_section c) = Media /\ asMedia memento = None)
  /\ (updateSearchControllers data c memento = Abort ExpectsViolation
      <-> type (_section c) = Media /\ asMedia memento <> None
          /\ SharedMediaAllowSearch (mediaType (_section c)) = true
          /\ Key.peer (_key c) = None)
  /\ updateSearchControllers data c memento <> Abort NullDereference
  /\ ((exists c', updateSearchControllers data c memento = Done c')
      <-> type (_section c) <> Media
          \/ (asMedia memento <> None
              /\ (SharedMediaAllowSearch (mediaType (_section c)) = false
                  \/ Key.peer (_key c) <> None))).
Proof.
  update_cases c memento; repeat split; intros; settle.
Qed.

(** X3.  The two search flags follow the query field: a completed
    [updateSearchControllers] copies [searchEnabledByContent] and
    [searchStartsFocused] from the snapshot when the section supports
    search, and otherwise leaves the controller's flags as they were (they
    are not reset). *)
Theorem updateSearchControllers_flags data c memento c' :
  updateSearchControllers data c memento = Done c' ->
  (supportsSearch (_section c) = true ->
   _seachEnabledByContent c' = searchEnabledByContent memento
   /\ _searchStartsFocused c' = searchStartsFocused memento)
  /\ (supportsSearch (_section c) = false ->
      _seachEnabledByContent c' = _seachEnabledByContent c
      /\ _searchStartsFocused c' = _searchStartsFocused c).
Proof.
  update_cases c memento; intros Hdone; try discriminate Hdone;
    injection Hdone as <-; cbn; split; intros Hs; try discriminate Hs;
    split; reflexivity.
Qed.

(** X4.  The delegate a completed [updateSearchControllers] leaves in a
    Media section: the state restored from the snapshot and, when the media
    type is searchable, on top of it the query built from the section's
    media type, the Key's peer id, the snapshot's saved text and the
    migrated peer's id (the query field delivers its initial text at
    once). *)
Theorem updateSearchControllers_restored_delegate
    data c memento c' mediaMemento :
  updateSearchControllers data c memento = Done c' ->
  type (_section c) = Media ->
  asMedia memento = Some mediaMemento ->
  let restored := restoreState (searchState mediaMemento) makeDelegate in
  (SharedMediaAllowSearch (mediaType (_section c)) = false ->
   _searchController c' = Some restored)
  /\ (SharedMediaAllowSearch (mediaType (_section c)) = true ->
      exists p,
        Key.peer (_key c) = Some p
        /\ _searchController c'
           = Some (setQuery
                     {| q_type := mediaType (_section c);
                        q_peerId := peer_id (peerAt data p);
                        q_query := searchFieldQuery memento;
                        q_migratedPeerId := migratedPeerId data c |}
                     restored)).
Proof.
  intros Hdone Hmedia Hkind. revert Hdone.
  unfold updateSearchControllers, restoreSearchController, forwardQuery,
    produceSearchQuery.
  rewrite Hmedia, Hkind. cbn.
  destruct (SharedMediaAllowSearch (mediaType (_section c))); cbn.
  - destruct (Key.peer (_key c)) as [p|]; cbn; [|discriminate].
    intros [= <-]; cbn. split; [discriminate|].
    intros _. exists p. split; reflexivity.
  - intros [= <-]; cbn. split; [reflexivity|discriminate].
Qed.

(** X6.  [setSection] transfers nothing from the previous section: its
    result does not depend on the section shown before nor on the two
    delegates in place.  Two controllers with the same navigator, widget,
    Key, migrated peer, subscriptions and flags end up identical, so a
    text typed into the old query field is gone. *)
Theorem setSection_discards_previous_search data c1 c2 memento :
  sameIdentity c1 c2 ->
  _seachEnabledByContent c2 = _seachEnabledByContent c1 ->
  _searchStartsFocused c2 = _searchStartsFocused c1 ->
  setSection data c2 memento = setSection data c1 memento.
Proof.
  intros (Hp & Hw & Hk & Hm & Hl) He Hf.
  destruct c1, c2; cbn in *; subst. reflexivity.
Qed.

(** *** The forwarding subscription over the controller's life *)

Lemma updateSearchControllers_forwardingSound data c memento c' :
  updateSearchControllers data c memento = Done c' -> forwardingSound c'.
Proof.
  update_cases c memento; intros Hdone; try discriminate Hdone;
    injection Hdone as <-; intros field Hfield Hforwards; cbn in *;
    try discriminate Hfield; injection Hfield as <-; cbn in Hforwards;
    try discriminate Hforwards; split; congruence.
Qed.

Lemma fieldQueryChanged_forwardingSound data c text c' :
  forwardingSound c -> fieldQueryChanged data c text = Done c' ->
  forwardingSound c'.
Proof.
  unfold fieldQueryChanged. intros Hsound.
  destruct (_searchFieldController c) as [field|] eqn:Hfield;
    [|now intros [= <-]; intros f Hf; congruence].
  destruct (forwardsQuery field) eqn:Hforwards.
  - destruct (Hsound field Hfield Hforwards) as [_ Hpeer].
    destruct (_searchController c) as [d|]; cbn; [|discriminate].
    destruct (forwardQuery data c text d); cbn; [|discriminate].
    intros [= <-]. intros f Hf _. cbn in *. split; [discriminate|exact Hpeer].
  - cbn. intros [= <-]. intros f Hf Hfw. cbn in *.
    injection Hf as <-. cbn in Hfw. congruence.
Qed.

Lemma setupMigrationViewer_forwardingSound data c :
  forwardingSound c -> forwardingSound (fst (setupMigrationViewer data c)).
Proof.
  unfold setupMigrationViewer. intros Hsound.
  destruct (Key.peer (_key c)) as [p|]; [|exact Hsound].
  destruct (negb (isChat (peerAt data p)) && negb (isChannel (peerAt data p))
            || isSome (_migrated c)); exact Hsound.
Qed.

Lemma constructed_forwardingSound c : constructed c -> forwardingSound c.
Proof.
  intros (data & widget & window & memento & c0 & queued0 & Hnew & Hev).
  assert (forwardingSound c0) as H0.
  { unfold Controller_new in Hnew.
    destruct (updateSearchControllers _ _ memento) as [c1|] eqn:Hupdate;
      cbn in Hnew; [|discriminate].
    injection Hnew as Hpair.
    apply updateSearchControllers_forwardingSound in Hupdate.
    replace c0 with (fst (setupMigrationViewer data c1)) by now rewrite Hpair.
    now apply setupMigrationViewer_forwardingSound. }
  clear Hnew.
  induction Hev as [|data' c memento' c' _ IH Hstep|data' c text c' _ IH Hstep
                   |c d' _ IH].
  - exact H0.
  - unfold setSection in Hstep.
    now apply updateSearchControllers_forwardingSound in Hstep.
  - eapply fieldQueryChanged_forwardingSound; eassumption.
  - intros field Hfield Hforwards. cbn in *.
    destruct (IH field Hfield Hforwards) as [Hsc Hpeer].
    split; [|exact Hpeer].
    destruct (_searchController c); [discriminate|contradiction].
Qed.

(** For a controller in use the forwarding subscription exists only in a
    Media section, so [produceSearchQuery] reads the section's media type
    only where it is defined. *)
Lemma constructed_forwarding_in_media c field :
  constructed c ->
  _searchFieldController c = Some field ->
  forwardsQuery field = true ->
  type (_section c) = Media.
Proof.
  intros Hc Hfield Hforwards.
  destruct (constructed_forwardingSound c Hc field Hfield Hforwards)
    as [Hsc _].
  apply constructed_delegate in Hc. unfold delegateMatchesSection in Hc.
  apply SectionType_eqb_eq. rewrite <- Hc.
  destruct (_searchController c); [reflexivity|contradiction].
Qed.

(** X7.  Typing into the query field of a controller in use never stops
    the program: the change completes, the field holds the new text, and
    when the field forwards to the content-search delegate, the delegate
    is handed the query made of the section's media type, the Key's peer
    id, the new text and the migrated peer's id.  Without a query field
    nothing changes. *)
Theorem query_text_reaches_delegate c data (text : QString) :
  constructed c ->
  exists c',
    fieldQueryChanged data c text = Done c'
    /\ (_searchFieldController c = None -> c' = c)
    /\ (forall field, _searchFieldController c = Some field ->
        _searchFieldController c'
        = Some {| query := text; forwardsQuery := forwardsQuery field |}
        /\ (forwardsQuery field = false ->
            _searchController c' = _searchController c)
        /\ (forwardsQuery field = true ->
            exists p d,
              Key.peer (_key c) = Some p
              /\ _searchController c = Some d
              /\ _searchController c'
                 = Some (setQuery
                           {| q_type := mediaType (_section c);
                              q_peerId := peer_id (peerAt data p);
                              q_query := text;
                              q_migratedPeerId := migratedPeerId data c |}
                           d))).
Proof.
  intros Hc. apply constructed_forwardingSound in Hc.
  unfold fieldQueryChanged, forwardQuery, produceSearchQuery.
  destruct (_searchFieldController c) as [field|] eqn:Hfield.
  - destruct (forwardsQuery field) eqn:Hforwards.
    + destruct (Hc field Hfield Hforwards) as [Hsc Hpeer].
      destruct (_searchController c) as [d|]; [|contradiction].
      destruct (Key.peer (_key c)) as [p|]; [|contradiction].
      cbn. eexists. split; [reflexivity|]. split; [discriminate|].
      intros f [= <-]. cbn. rewrite Hforwards.
      split; [reflexivity|]. split; [discriminate|].
      intros _. exists p, d. repeat split; reflexivity.
    + cbn. eexists. split; [reflexivity|]. split; [discriminate|].
      intros f [= <-]. cbn. rewrite Hforwards.
      split; [reflexivity|]. split; [reflexivity|discriminate].
  - exists c. split; [reflexivity|]. split; [reflexivity|discriminate].
Qed.

(** ** Media sources of the concrete controller *)

(** X8.  The concrete [mediaSourceQueryValue] of a controller in use is the
    delegate's live query value in a Media section, and in every other
    section the constant empty text the base class returns. *)
Theorem Controller_mediaSourceQueryValue_by_section c :
  constructed c ->
  (type (_section c) = Media ->
   exists searchController,
     _searchController c = Some searchController
     /\ Controller_mediaSourceQueryValue c = currentQueryValue searchController)
  /\ (type (_section c) <> Media ->
      Controller_mediaSourceQueryValue c = single EmptyString
      /\ Controller_mediaSourceQueryValue c
         = AbstractController_mediaSourceQueryValue c).
Proof.
  intros Hc. apply constructed_delegate in Hc.
  unfold delegateMatchesSection in Hc.
  unfold Controller_mediaSourceQueryValue,
    AbstractController_mediaSourceQueryValue.
  destruct (_searchController c) as [d|]; cbn in Hc; symmetry in Hc; split.
  - intros _. exists d. split; reflexivity.
  - intros Hne. apply SectionType_eqb_eq in Hc. contradiction.
  - intros Hmedia. rewrite Hmedia in Hc. discriminate.
  - intros _. split; reflexivity.
Qed.

(** X9.  The concrete [mediaSource] never asks for the scheduled viewer:
    whatever it returns is the delegate's [idsSlice] or the merged-history
    viewer.  For a scheduled anchor it therefore differs from the base
    implementation, which returns the scheduled viewer in a Media section
    and stops in any other. *)
Theorem Controller_mediaSource_never_scheduled
    c (data : DataSession) (aroundId : MsgId) (limitBefore limitAfter : Z) :
  (forall key_ before after,
     Controller_mediaSource c aroundId limitBefore limitAfter
     <> Done (SharedScheduledMediaViewer key_ before after))
  /\ (forall p item_,
        Key.peer (_key c) = Some p ->
        message data (peer_id (peerAt data p)) aroundId = Some item_ ->
        isScheduled item_ = true ->
        Controller_mediaSource c aroundId limitBefore limitAfter
        <> AbstractController_mediaSource data c aroundId limitBefore limitAfter).
Proof.
  assert (forall key_ before after,
            Controller_mediaSource c aroundId limitBefore limitAfter
            <> Done (SharedScheduledMediaViewer key_ before after)) as Hnever.
  { intros key_ before after. unfold Controller_mediaSource.
    destruct (_searchController c) as [d|]; [|discriminate].
    destruct (negb (isEmpty (q_query (currentQuery d)))); discriminate. }
  split; [exact Hnever|].
  intros p item_ Hpeer Hmessage Hscheduled Hsame.
  unfold AbstractController_mediaSource, peer in Hsame. cbn in Hsame.
  rewrite Hpeer, Hmessage, Hscheduled in Hsame.
  destruct (Section_mediaType (_section c)) as [mediaType_|stop] eqn:Hsection;
    cbn in Hsame.
  - exact (Hnever _ _ _ Hsame).
  - unfold Controller_mediaSource in Hsame.
    destruct (_searchController c) as [d|];
      [destruct (negb (isEmpty (q_query (currentQuery d))))|];
      try discriminate Hsame.
    unfold Section_mediaType in Hsection.
    destruct (SectionType_eqb (type (_section c)) Media); congruence.
Qed.

(** X10.  In a Media section, when the delegate's current query has an
    empty text and carries the controller's own peer id, migrated-peer id
    and media type, and the anchor is not a scheduled message, the concrete
    [mediaSource] returns the same viewer request as the base
    implementation. *)
Theorem Controller_mediaSource_agrees_with_base
    c (data : DataSession) searchController p
    (aroundId : MsgId) (limitBefore limitAfter : Z) :
  type (_section c) = Media ->
  _searchController c = Some searchController ->
  Key.peer (_key c) = Some p ->
  q_query (currentQuery searchController) = EmptyString ->
  q_peerId (currentQuery searchController) = peer_id (peerAt data p) ->
  q_migratedPeerId (currentQuery searchController) = migratedPeerId data c ->
  q_type (currentQuery searchController) = mediaType (_section c) ->
  (forall item_, message data (peer_id (peerAt data p)) aroundId = Some item_ ->
                 isScheduled item_ = false) ->
  Controller_mediaSource c aroundId limitBefore limitAfter
  = AbstractController_mediaSource data c aroundId limitBefore limitAfter.
Proof.
  intros Hmedia Hsc Hpeer Htext Hid Hmigrated Htype Hplain.
  unfold Controller_mediaSource, AbstractController_mediaSource, peer,
    Section_mediaType. cbn.
  rewrite Hsc, Hpeer, Htext, Hid, Hmigrated, Htype, Hmedia. cbn.
  destruct (message data (peer_id (peerAt data p)) aroundId) as [i|] eqn:Hm;
    [rewrite (Hplain i eq_refl)|]; reflexivity.
Qed.

End SearchWiring.

Section Construction.

Context {SavedState Delegate : Type} {ext : Collaborators SavedState Delegate}.

Implicit Types (c : @Controller Delegate) (memento : ContentMemento SavedState).

(** The constructor, taken apart: the controller before the migration
    viewer is set up, with the members the constructor has given it. *)
Lemma Controller_new_inv data widget window memento c0 queued0 :
  Controller_new data widget window memento = Done (c0, queued0) ->
  exists c1,
    setupMigrationViewer data c1 = (c0, queued0)
    /\ _parent c1 = window /\ _widget c1 = widget
    /\ _key c1 = memento_key memento
    /\ _migrated c1
       = (if _migratedPeerId memento =? 0 then None
          else Some (peerById data (_migratedPeerId memento)))
    /\ _section c1 = memento_section memento
    /\ lifetime c1 = [].
Proof.
  unfold Controller_new.
  destruct (updateSearchControllers _ _ memento) as [c1|] eqn:Hupdate;
    cbn; [|discriminate].
  intros [= Hpair]. exists c1.
  apply updateSearchControllers_done in Hupdate. cbn in Hupdate.
  destruct Hupdate as ((Hp & Hw & Hk & Hm & Hs & Hl) & _).
  repeat split; assumption.
Qed.

(** When the guard of [setupMigrationViewer] holds, nothing happens. *)
Lemma setupMigrationViewer_skipped data c :
  Key.peer (_key c) = None
  \/ (exists p, Key.peer (_key c) = Some p
                /\ isChat (peerAt data p) = false
                /\ isChannel (peerAt data p) = false)
  \/ _migrated c <> None ->
  setupMigrationViewer data c = (c, []).
Proof.
  unfold setupMigrationViewer.
  intros [Hnone|[(p & Hp & Hchat & Hchannel)|Hmigrated]].
  - now rewrite Hnone.
  - rewrite Hp, Hchat, Hchannel. reflexivity.
  - destruct (Key.peer (_key c)) as [p|]; [|reflexivity].
    destruct (_migrated c); [|contradiction].
    cbn. now rewrite orb_true_r.
Qed.

(** Otherwise the subscription is added and delivers once. *)
Lemma setupMigrationViewer_installed data c p c0 queued0 :
  setupMigrationViewer data c = (c0, queued0) ->
  Key.peer (_key c) = Some p ->
  isChat (peerAt data p) = true \/ isChannel (peerAt data p) = true ->
  _migrated c = None ->
  queued0 = migrationDelivery data c p.
Proof.
  unfold setupMigrationViewer. intros Hsetup Hp Hkind Hnone.
  rewrite Hp, Hnone in Hsetup. cbn in Hsetup.
  destruct Hkind as [Hkind|Hkind]; rewrite Hkind in Hsetup; cbn in Hsetup;
    rewrite ?andb_false_r in Hsetup; cbn in Hsetup; congruence.
Qed.

Lemma migrated_of_snapshot data memento :
  (if _migratedPeerId memento =? 0 then None
   else Some (peerById data (_migratedPeerId memento))) = None
  <-> _migratedPeerId memento = 0.
Proof.
  destruct (Z.eqb_spec (_migratedPeerId memento) 0); split; congruence.
Qed.

Lemma notifyPeerUpdate_nothing data c q flags (w : World) :
  peerUpdated data c q flags = [] -> notifyPeerUpdate data c q flags w = w.
Proof.
  intros Hnone. unfold notifyPeerUpdate. rewrite Hnone, app_nil_r.
  now destruct w.
Qed.

(** X11.  The migration viewer is set up only for a chat or channel peer
    without a recorded migrated peer.  A controller built for any other
    snapshot (no peer in the Key, a peer that is neither chat nor channel,
    or a migrated peer recorded) queues nothing at construction, holds no
    subscription for the rest of its life, and no peer update of any
    kind makes it queue a navigation. *)
Theorem migration_viewer_absent
    (data0 : DataSession) widget window memento c0 queued0 c :
  Controller_new data0 widget window memento = Done (c0, queued0) ->
  evolves c0 c ->
  Key.peer (memento_key memento) = None
  \/ (exists p, Key.peer (memento_key memento) = Some p
                /\ isChat (peerAt data0 p) = false
                /\ isChannel (peerAt data0 p) = false)
  \/ _migratedPeerId memento <> 0 ->
  queued0 = []
  /\ lifetime c = []
  /\ forall (data : DataSession) q flags (w : World),
       notifyPeerUpdate data c q flags w = w.
Proof.
  intros Hnew Hev Hguard.
  apply Controller_new_inv in Hnew.
  destruct Hnew as (c1 & Hsetup & _ & _ & Hk & Hm & _ & Hl).
  rewrite setupMigrationViewer_skipped in Hsetup.
  - injection Hsetup as <- <-.
    apply evolves_sameIdentity in Hev. destruct Hev as (_ & _ & _ & _ & Hl').
    assert (lifetime c = []) as Hempty by congruence.
    split; [reflexivity|]. split; [exact Hempty|].
    intros data q flags w. apply notifyPeerUpdate_nothing.
    unfold peerUpdated. now rewrite Hempty.
  - rewrite Hk. destruct Hguard as [H|[H|H]]; [now left|now right; left|].
    right; right. rewrite Hm, migrated_of_snapshot. exact H.
Qed.

(** X12.  With the viewer set up, only a Migration update of the watched
    peer that passes the filter has an effect: an update of another peer,
    an update with another flag, and a Migration update that finds the
    peer without migration target and without migration source all leave
    the event queue and the navigator as they are. *)
Theorem migration_viewer_ignores_other_updates
    (data0 : DataSession) widget window memento c0 queued0 c (p : PeerPtr) :
  Controller_new data0 widget window memento = Done (c0, queued0) ->
  evolves c0 c ->
  Key.peer (_key c) = Some p ->
  isChat (peerAt data0 p) = true \/ isChannel (peerAt data0 p) = true ->
  _migrated c = None ->
  forall (data : DataSession) q flags (w : World),
    q <> p \/ flags <> MigrationFlag
    \/ (migrateTo (peerAt data p) = None /\ migrateFrom (peerAt data p) = None) ->
    notifyPeerUpdate data c q flags w = w.
Proof.
  intros Hnew Hev Hpeer Hkind Hnone data q flags w Hother.
  apply Controller_new_done in Hnew.
  destruct Hnew as (_ & _ & _ & _ & _ & Hsub).
  apply evolves_sameIdentity in Hev.
  destruct Hev as (_ & _ & Hk & Hm & Hl).
  rewrite Hk in Hpeer. pose proof Hnone as Hnone0. rewrite Hm in Hnone0.
  specialize (Hsub p Hpeer Hkind Hnone0).
  apply notifyPeerUpdate_nothing.
  unfold peerUpdated. rewrite Hl, Hsub. cbn. rewrite app_nil_r.
  destruct (PeerPtr_eqb p q) eqn:Hsame; [|reflexivity].
  destruct flags; cbn; [|reflexivity].
  apply PeerPtr_eqb_eq in Hsame. subst q.
  destruct Hother as [H|[H|[Hto Hfrom]]]; try contradiction.
  unfold migrationDelivery, migrationFilter.
  now rewrite Hto, Hfrom, Hnone.
Qed.

(** X13.  The viewer delivers once when it is set up, so the constructor
    itself queues the replacement when the panel is opened on a chat or
    channel that already has a migration target or source: the queue
    returned by the constructor holds exactly the guarded [showSection]
    for the same peer and the snapshot's section.  For a peer without
    either, the constructor queues nothing. *)
Theorem constructor_queues_for_migrated_peer
    (data : DataSession) widget window memento c0 queued0 (p : PeerPtr) :
  Controller_new data widget window memento = Done (c0, queued0) ->
  Key.peer (memento_key memento) = Some p ->
  isChat (peerAt data p) = true \/ isChannel (peerAt data p) = true ->
  _migratedPeerId memento = 0 ->
  (migrateTo (peerAt data p) <> None \/ migrateFrom (peerAt data p) <> None ->
   queued0 = [replacementCall widget window p (memento_section memento)])
  /\ (migrateTo (peerAt data p) = None /\ migrateFrom (peerAt data p) = None ->
      queued0 = []).
Proof.
  intros Hnew Hpeer Hkind Hzero.
  apply Controller_new_inv in Hnew.
  destruct Hnew as (c1 & Hsetup & Hp & Hw & Hk & Hm & Hs & _).
  assert (_migrated c1 = None) as Hnone
    by (rewrite Hm; now apply migrated_of_snapshot).
  rewrite <- Hk in Hpeer.
  rewrite (setupMigrationViewer_installed _ _ _ _ _ Hsetup Hpeer Hkind Hnone).
  unfold migrationDelivery. split.
  - intros Hmigrated.
    assert (migrationFilter data c1 p = true) as ->.
    { apply migrationFilter_true. rewrite Hnone. exact Hmigrated. }
    unfold migrationNext, replacementCall. cbn. now rewrite Hp, Hw, Hs.
  - intros [Hto Hfrom]. unfold migrationFilter.
    now rewrite Hto, Hfrom, Hnone.
Qed.

(** X14.  Which snapshots a controller can be built from.  The
    constructor completes unless the snapshot's section is Media and
    either the snapshot is not of Media kind (the [Assert]) or the media
    type is searchable while the Key has no peer (the [Expects] of
    [produceSearchQuery]). *)
Theorem Controller_new_outcome (data : DataSession) widget window memento :
  ((exists c0 queued0,
      Controller_new data widget window memento = Done (c0, queued0))
   <-> type (memento_section memento) <> Media
       \/ (asMedia memento <> None
           /\ (SharedMediaAllowSearch (mediaType (memento_section memento)) = false
               \/ Key.peer (memento_key memento) <> None)))
  /\ (Controller_new data widget window memento = Abort AssertViolation
      <-> type (memento_section memento) = Media /\ asMedia memento = None)
  /\ (Controller_new data widget window memento = Abort ExpectsViolation
      <-> type (memento_section memento) = Media /\ asMedia memento <> None
          /\ SharedMediaAllowSearch (mediaType (memento_section memento)) = true
          /\ Key.peer (memento_key memento) = None).
Proof.
  unfold Controller_new, updateSearchControllers, restoreSearchController,
    forwardQuery, produceSearchQuery. cbn.
  destruct (type (memento_section memento)) eqn:Htype; cbn;
    try (destruct (asMedia memento) as [mm|] eqn:Hkind; cbn);
    try (destruct (SharedMediaAllowSearch (mediaType (memento_section memento)))
           eqn:Hallow; cbn);
    try (destruct (Key.peer (memento_key memento)) as [p|] eqn:Hpeer; cbn);
    repeat split; intros;
    match goal with
    | |- exists _ _, Done ?pair = _ => destruct pair; do 2 eexists; reflexivity
    | H : exists _ _, _ |- _ => destruct H as (? & ? & H); discriminate H
    | _ => solve [intuition (discriminate || congruence)]
    end.
Qed.

(** ** Validation against snapshots *)

(** X15.  A controller accepts the snapshot it was built from, at any
    later point of its life, provided the session's peer lookup answers
    the recorded migrated-peer id with a peer of that id. *)
Theorem controller_validates_own_snapshot
    (data : DataSession) widget window memento c0 queued0 c :
  Controller_new data widget window memento = Done (c0, queued0) ->
  evolves c0 c ->
  (_migratedPeerId memento <> 0 ->
   peerLookupCoherent data (_migratedPeerId memento)) ->
  validateMementoPeer data c memento = true.
Proof.
  intros Hnew Hev Hcoherent.
  apply Controller_new_inv in Hnew.
  destruct Hnew as (c1 & Hsetup & _ & _ & Hk & Hm & _).
  pose proof (setupMigrationViewer_done data c1) as Hkept.
  cbn zeta in Hkept. rewrite Hsetup in Hkept. cbn in Hkept.
  destruct Hkept as (_ & _ & Hk0 & Hm0 & _).
  apply evolves_sameIdentity in Hev. destruct Hev as (_ & _ & Hk' & Hm' & _).
  unfold validateMementoPeer, memento_peer, memento_settingsSelf, peer,
    settingsSelf, migratedPeerId. cbn.
  rewrite Hk', Hk0, Hk, Hm', Hm0, Hm.
  rewrite !andb_true_iff. repeat split.
  - now apply (ptr_eqb_eq _ PeerPtr_eqb_eq).
  - apply Z.eqb_eq.
    destruct (Z.eqb_spec (_migratedPeerId memento) 0) as [Hz|Hnz];
      [exact Hz|].
    symmetry. exact (Hcoherent Hnz).
  - now apply (ptr_eqb_eq _ UserPtr_eqb_eq).
Qed.

(** X16.  [validateMementoPeer] compares peer, migrated-peer id and
    settings owner only.  It cannot tell the downloads list and polls
    apart: a controller whose Key is the downloads marker or a poll, with
    no migrated peer, accepts every snapshot whose Key is the downloads
    marker or any poll and whose migrated-peer id is 0. *)
Theorem validateMementoPeer_blind_to_poll_and_downloads
    (data : DataSession) c memento :
  Key.isDownloads (_key c) = true \/ Key.poll (_key c) <> None ->
  _migrated c = None ->
  Key.isDownloads (memento_key memento) = true
  \/ Key.poll (memento_key memento) <> None ->
  _migratedPeerId memento = 0 ->
  validateMementoPeer data c memento = true.
Proof.
  intros Hc Hnone Hm Hzero.
  unfold validateMementoPeer, memento_peer, memento_settingsSelf, peer,
    settingsSelf, migratedPeerId. cbn.
  rewrite Hnone, Hzero.
  destruct (_key c), (memento_key memento); cbn in *;
    solve [reflexivity | destruct Hc; congruence | destruct Hm; congruence].
Qed.

End Construction.

(** ** The further properties on the sample session *)

Lemma updateSearchControllers_outcome_witness :
  updateSearchControllers sampleData (blank filesSnapshot) profileSnapshot
  = Abort AssertViolation
  /\ updateSearchControllers sampleData (blank strayFilesSnapshot)
       strayFilesSnapshot
     = Abort ExpectsViolation
  /\ exists c', updateSearchControllers sampleData (blank filesSnapshot)
                  filesSnapshot = Done c'.
Proof.
  split; [|split].
  - apply (proj1 (@updateSearchControllers_outcome _ _ DirectSearch
                    sampleData (blank filesSnapshot) profileSnapshot)).
    split; reflexivity.
  - apply (proj1 (proj2 (@updateSearchControllers_outcome _ _ DirectSearch
                           sampleData (blank strayFilesSnapshot)
                           strayFilesSnapshot))).
    repeat split; try reflexivity. discriminate.
  - apply (proj2 (proj2 (proj2 (@updateSearchControllers_outcome _ _ DirectSearch
                                  sampleData (blank filesSnapshot)
                                  filesSnapshot)))).
    right. split; [discriminate|]. right. discriminate.
Defined.

Lemma updateSearchControllers_flags_witness :
  _seachEnabledByContent filesRestored = true
  /\ _seachEnabledByContent downloadsRestored = false.
Proof.
  assert (updateSearchControllers sampleData (blank filesSnapshot) filesSnapshot
          = Done filesRestored) as Hfiles by reflexivity.
  assert (updateSearchControllers sampleData (blank downloadsSnapshot)
            downloadsSnapshot = Done downloadsRestored) as Hdownloads
    by reflexivity.
  split.
  - apply (proj1 (@updateSearchControllers_flags _ _ DirectSearch
                    _ _ _ _ Hfiles)).
    reflexivity.
  - apply (proj2 (@updateSearchControllers_flags _ _ DirectSearch
                    _ _ _ _ Hdownloads)).
    reflexivity.
Defined.

Lemma updateSearchControllers_restored_delegate_witness :
  _searchController filesRestored
  = Some {| q_type := File; q_peerId := 101; q_query := cats;
            q_migratedPeerId := 0 |}.
Proof.
  assert (updateSearchControllers sampleData (blank filesSnapshot) filesSnapshot
          = Done filesRestored) as Hfiles by reflexivity.
  destruct (proj2 (@updateSearchControllers_restored_delegate _ _ DirectSearch
                     _ _ _ _ _ Hfiles eq_refl eq_refl) eq_refl)
    as (p & Hp & Hsc).
  cbn in Hp. injection Hp as <-. exact Hsc.
Defined.

Lemma setSection_discards_previous_search_witness :
  _searchFieldController filesTyped <> _searchFieldController filesController
  /\ setSection sampleData filesTyped photosSnapshot
     = setSection sampleData filesController photosSnapshot.
Proof.
  split; [discriminate|].
  apply (@setSection_discards_previous_search _ _ DirectSearch);
    [repeat split|..]; reflexivity.
Defined.

Lemma query_text_reaches_delegate_witness :
  exists c',
    fieldQueryChanged sampleData filesController dogs = Done c'
    /\ _searchController c'
       = Some {| q_type := File; q_peerId := 101; q_query := dogs;
                 q_migratedPeerId := 0 |}.
Proof.
  destruct (@query_text_reaches_delegate _ _ DirectSearch
              filesController sampleData dogs filesController_constructed)
    as (c' & Hdone & _ & Hfield).
  exists c'. split; [exact Hdone|].
  destruct (Hfield _ eq_refl) as (_ & _ & Hforwarded).
  destruct (Hforwarded eq_refl) as (p & d & Hp & Hd & Hsc).
  cbn in Hp, Hd. injection Hp as <-. injection Hd as <-. exact Hsc.
Defined.

Lemma Controller_mediaSourceQueryValue_by_section_witness :
  Controller_mediaSourceQueryValue profileController = single EmptyString
  /\ exists d, Controller_mediaSourceQueryValue photosController
               = currentQueryValue d.
Proof.
  split.
  - apply (proj2 (@Controller_mediaSourceQueryValue_by_section _ _ DirectSearch
                    profileController profileController_constructed)).
    discriminate.
  - destruct (proj1 (@Controller_mediaSourceQueryValue_by_section _ _
                       DirectSearch photosController
                       photosController_constructed) eq_refl)
      as (d & _ & Hvalue).
    now exists d.
Defined.

Lemma Controller_mediaSource_never_scheduled_witness :
  Controller_mediaSource photosController 7 10 10
  <> AbstractController_mediaSource sampleData photosController 7 10 10.
Proof.
  apply (proj2 (@Controller_mediaSource_never_scheduled _ _ DirectSearch
                  photosController sampleData 7 10 10)
           (PeerAt 1) {| isScheduled := true |});
    reflexivity.
Defined.

Lemma Controller_mediaSource_agrees_with_base_witness :
  Controller_mediaSource photosController 8 10 10
  = AbstractController_mediaSource sampleData photosController 8 10 10.
Proof.
  apply (@Controller_mediaSource_agrees_with_base _ _ DirectSearch
           photosController sampleData
           {| q_type := Photo; q_peerId := 101; q_query := EmptyString;
              q_migratedPeerId := 0 |} (PeerAt 1));
    try reflexivity.
  intros i Hi. cbn in Hi. injection Hi as <-. reflexivity.
Defined.

Lemma migration_viewer_absent_witness :
  notifyPeerUpdate migratedData userController (PeerAt 3) MigrationFlag idle = idle
  /\ notifyPeerUpdate migratedData channelController (PeerAt 2) MigrationFlag idle
     = idle.
Proof.
  assert (Controller_new sampleData (WidgetAt 0) (WindowAt 0) userSnapshot
          = Done (userController, [])) as Huser by reflexivity.
  assert (Controller_new sampleData (WidgetAt 0) (WindowAt 0) channelSnapshot
          = Done (channelController, [])) as Hchannel by reflexivity.
  split.
  - apply (@migration_viewer_absent _ _ DirectSearch _ _ _ _ _ _ _
             Huser (evolves_refl _)).
    right; left. exists (PeerAt 3). repeat split; reflexivity.
  - apply (@migration_viewer_absent _ _ DirectSearch _ _ _ _ _ _ _
             Hchannel (evolves_refl _)).
    right; right. discriminate.
Defined.

Lemma migration_viewer_ignores_other_updates_witness :
  notifyPeerUpdate migratedData profileController (PeerAt 2) MigrationFlag idle
  = idle
  /\ notifyPeerUpdate migratedData profileController (PeerAt 1) OtherFlag idle
     = idle
  /\ notifyPeerUpdate sampleData profileController (PeerAt 1) MigrationFlag idle
     = idle.
Proof.
  assert (Controller_new sampleData (WidgetAt 0) (WindowAt 0) profileSnapshot
          = Done (profileController, [])) as Hnew by reflexivity.
  pose proof (@migration_viewer_ignores_other_updates _ _ DirectSearch
                _ _ _ _ _ _ _ (PeerAt 1) Hnew (evolves_refl _) eq_refl
                (or_introl eq_refl) eq_refl) as Hignored.
  split; [|split]; apply Hignored.
  - left. discriminate.
  - right; left. discriminate.
  - right; right. split; reflexivity.
Defined.

Lemma constructor_queues_for_migrated_peer_witness :
  snd (builtIn migratedData profileSnapshot)
  = [replacementCall (WidgetAt 0) (WindowAt 0) (PeerAt 1)
       {| type := Profile; mediaType := kCount |}]
  /\ snd (builtIn sampleData profileSnapshot) = [].
Proof.
  assert (Controller_new migratedData (WidgetAt 0) (WindowAt 0) profileSnapshot
          = Done (lateProfileController,
                  snd (builtIn migratedData profileSnapshot))) as Hlate
    by reflexivity.
  assert (Controller_new sampleData (WidgetAt 0) (WindowAt 0) profileSnapshot
          = Done (profileController,
                  snd (builtIn sampleData profileSnapshot))) as Hearly
    by reflexivity.
  split.
  - apply (proj1 (@constructor_queues_for_migrated_peer _ _ DirectSearch
                    _ _ _ _ _ _ (PeerAt 1) Hlate eq_refl
                    (or_introl eq_refl) eq_refl)).
    left. discriminate.
  - apply (proj2 (@constructor_queues_for_migrated_peer _ _ DirectSearch
                    _ _ _ _ _ _ (PeerAt 1) Hearly eq_refl
                    (or_introl eq_refl) eq_refl)).
    split; reflexivity.
Defined.

Lemma Controller_new_outcome_witness :
  Controller_new sampleData (WidgetAt 0) (WindowAt 0) strayFilesSnapshot
  = Abort ExpectsViolation
  /\ exists c0 queued0,
       Controller_new sampleData (WidgetAt 0) (WindowAt 0) photosSnapshot
       = Done (c0, queued0).
Proof.
  split.
  - apply (proj2 (proj2 (@Controller_new_outcome _ _ DirectSearch
                           sampleData (WidgetAt 0) (WindowAt 0)
                           strayFilesSnapshot))).
    repeat split; try reflexivity. discriminate.
  - apply (proj1 (@Controller_new_outcome _ _ DirectSearch
                    sampleData (WidgetAt 0) (WindowAt 0) photosSnapshot)).
    right. split; [discriminate|]. left. reflexivity.
Defined.

Lemma controller_validates_own_snapshot_witness :
  validateMementoPeer sampleData channelController channelSnapshot = true.
Proof.
  assert (Controller_new sampleData (WidgetAt 0) (WindowAt 0) channelSnapshot
          = Done (channelController, [])) as Hnew by reflexivity.
  apply (@controller_validates_own_snapshot _ _ DirectSearch
           _ _ _ _ _ _ _ Hnew (evolves_refl _)).
  intros _. reflexivity.
Defined.

Lemma validateMementoPeer_blind_to_poll_and_downloads_witness :
  validateMementoPeer sampleData downloadsController pollSnapshot = true.
Proof.
  apply (@validateMementoPeer_blind_to_poll_and_downloads SearchQuery SearchQuery).
  - left. reflexivity.
  - reflexivity.
  - right. discriminate.
  - reflexivity.
Defined.
